(** * MarsPro: the dual-transport device-control layer

    A shallow embedding of the MarsPro integration's control layer:

    - [Coordinator]: [custom_components/marspro/coordinator.py], the polling
      coordinator and its device registry;
    - [Api]: [src/marspro/api.py], the transport facade with its cloud (HTTP)
      and local (BLE) paths;
    - [BleClient]: [src/marspro/ble_client_standalone.py], the stand-alone BLE
      client with its command packets and its connection life cycle.

    Python objects are modelled by [val], dictionaries with string keys by
    [gmap string val], exceptions by [exn], and a coroutine that may mutate
    [self] and raise by a state-and-error function [M St A].  An exception
    never rolls the state back: what a method assigned before raising stays
    assigned. *)

From Stdlib Require Import ZArith Floats.
From stdpp Require Import gmap strings list fin_maps pretty.

Set Warnings "-register-all,-inexact-float,-clear-no-such-hyp".

(** ** Python values *)

(** The values that travel through the integration: JSON-like payloads,
    keyword arguments, device records.  [VFloat] is a binary64 float, as
    Python's [float] is. *)
Inductive val : Type :=
  | VNone
  | VBool (b : bool)
  | VInt (z : Z)
  | VFloat (f : float)
  | VStr (s : string)
  | VList (l : list val)
  | VDict (d : gmap string val).

(** [Dict[str, Any]]. *)
Abbreviation dict := (gmap string val).

(** [bool(v)]: the truth value Python's [if v:] / [not v] tests. *)
Definition truthy (v : val) : bool :=
  match v with
  | VNone => false
  | VBool b => b
  | VInt z => negb (z =? 0)%Z
  | VFloat f => negb (PrimFloat.eqb f 0%float)
  | VStr s => negb (String.eqb s "")
  | VList l => match l with [] => false | _ :: _ => true end
  | VDict d => negb (Nat.eqb (size d) 0)
  end.

(** [d.get(key)] and [d.get(key, dflt)]. *)
Definition dict_get (d : dict) (key : string) : val :=
  default VNone (d !! key).

Definition dict_get_or (d : dict) (key : string) (dflt : val) : val :=
  default dflt (d !! key).

(** [v == s] for a string literal or a [str] argument [s]. *)
Definition eq_str (v : val) (s : string) : bool :=
  match v with
  | VStr s' => String.eqb s' s
  | _ => false
  end.

(** ** Exceptions and outcomes *)

Inductive exn_class : Set :=
  | ValueError
  | TypeError
  | IndexError
  | RuntimeError
  | AttributeError
  | StructError
  | OverflowError
  | BleakError
  | ClientError
  | UpdateFailed.

(** An exception: its class and [str(ex)]. *)
Record exn : Set := Exn { exn_class_of : exn_class; exn_msg : string }.

Inductive outcome (A : Type) : Type :=
  | Return (a : A)
  | Raise (e : exn).
Arguments Return {A} a.
Arguments Raise {A} e.

Definition is_return {A} (r : outcome A) : bool :=
  match r with Return _ => true | Raise _ => false end.

(** ** Methods as state-and-error functions *)

Definition M (St A : Type) : Type := St -> outcome A * St.

Definition ret {St A} (a : A) : M St A := fun st => (Return a, st).

Definition raise {St A} (e : exn) : M St A := fun st => (Raise e, st).

Definition bind {St A B} (m : M St A) (k : A -> M St B) : M St B :=
  fun st =>
    match m st with
    | (Return a, st') => k a st'
    | (Raise e, st') => (Raise e, st')
    end.

(** [try: body / except Exception as ex: handler ex]; the handler runs in the
    state the body left behind. *)
Definition try_except {St A} (body : M St A) (handler : exn -> M St A) : M St A :=
  fun st =>
    match body st with
    | (Return a, st') => (Return a, st')
    | (Raise e, st') => handler e st'
    end.

Definition gets {St A} (f : St -> A) : M St A := fun st => (Return (f st), st).

Definition modify {St} (f : St -> St) : M St unit := fun st => (Return tt, f st).

Notation "x <-- m ;; k" := (bind m (fun x => k))
  (at level 100, m at next level, right associativity).
Notation "m ;;; k" := (bind m (fun _ => k))
  (at level 100, right associativity).

(** ** The coordinator ([custom_components/marspro/coordinator.py]) *)

Module Coordinator.

Section WithApi.

(** The state of the collaborators behind [self.api] (sessions, links, the
    devices themselves): the coordinator only threads it through. *)
Context {S : Type}.

(** What the coordinator calls on its collaborators: the three [MarsProAPI]
    operations and the event loop's clock. *)
Record Env : Type := {
  api_get_devices : S -> outcome (list dict) * S;
  api_get_device_status : string -> S -> outcome dict * S;
  api_send_command : string -> string -> dict -> S -> outcome dict * S;
  loop_time : S -> float;
}.

(** [self]: the API behind it and [self.devices], the registry. *)
Record coordinator : Type := {
  api_state : S;
  devices : gmap string dict;
}.

(** The dictionary [_async_update_data] returns. *)
Record update_data : Type := {
  ud_devices : gmap string dict;
  ud_last_update : float;
}.

Variable env : Env.

(** [await self.api.f(...)]. *)
Definition call {A} (f : S -> outcome A * S) : M coordinator A :=
  fun self =>
    let (r, s') := f (api_state self) in
    (r, {| api_state := s'; devices := devices self |}).

Definition set_devices (updated : gmap string dict) : M coordinator unit :=
  modify (fun self => {| api_state := api_state self; devices := updated |}).

(** One pass of [for device in devices:] with [updated_devices] as the
    accumulator.  Device ids are [str] wherever the code declares them
    ([device_id: str], [self.devices: Dict[str, Dict[str, Any]]]) and the
    registry is keyed by [string] accordingly.  A listed record whose ["id"]
    is truthy and not a [str] is beyond that typing (the code would key the
    registry by the value itself, or fail on an unhashable one): the loop
    passes it by, and what is proved of the loop over an arbitrary listing is
    proved for listings within the typing ([ids_are_str_or_falsy] below). *)
Fixpoint update_loop (devs : list dict) (updated_devices : gmap string dict)
  : M coordinator (gmap string dict) :=
  match devs with
  | [] => ret updated_devices
  | device :: rest =>
      let device_id := dict_get device "id" in
      if truthy device_id then
        match device_id with
        | VStr k =>
            updated_devices' <--
              try_except
                (status <-- call (api_get_device_status env k) ;;
                 (* device.update(status): the keys of status win *)
                 let device' := status ∪ device in
                 ret (<[k := device']> updated_devices))
                (fun ex =>
                   (* Keep existing device data if status update fails *)
                   known <-- gets (fun self => devices self !! k) ;;
                   match known with
                   | Some previous => ret (<[k := previous]> updated_devices)
                   | None => ret (<[k := device]> updated_devices)
                   end) ;;
            update_loop rest updated_devices'
        | _ => update_loop rest updated_devices
        end
      else update_loop rest updated_devices
  end.

Definition _async_update_data : M coordinator update_data :=
  try_except
    (devs <-- call (api_get_devices env) ;;
     updated_devices <-- update_loop devs ∅ ;;
     set_devices updated_devices ;;;
     now <-- gets (fun self => loop_time env (api_state self)) ;;
     ret {| ud_devices := updated_devices; ud_last_update := now |})
    (fun ex =>
       raise (Exn UpdateFailed ("Failed to update MarsPro data: " +:+ exn_msg ex))).

(** [self.async_request_refresh()] belongs to the host framework's base
    class, not to this repository: [send_command] takes it as given. *)
Variable async_request_refresh : M coordinator unit.

Definition send_command (device_id command : string) (kwargs : dict)
  : M coordinator dict :=
  try_except
    (result <-- call (api_send_command env device_id command kwargs) ;;
     (* Refresh data after command *)
     async_request_refresh ;;;
     ret result)
    (fun ex => raise ex).

(** Registry reads.  [gmap] lists its values in its own key order where
    Python lists them in insertion order. *)
Definition get_device (device_id : string) : M coordinator dict :=
  gets (fun self => default ∅ (devices self !! device_id)).

Definition get_devices : M coordinator (list dict) :=
  gets (fun self => (map_to_list (devices self)).*2).

Definition get_devices_by_type (device_type : string) : M coordinator (list dict) :=
  gets (fun self =>
          filter (fun device => eq_str (dict_get device "type") device_type = true)
                 ((map_to_list (devices self)).*2)).

End WithApi.

Arguments Env : clear implicits.
Arguments coordinator : clear implicits.

(** Modelled from the spec: [DataUpdateCoordinator.async_request_refresh],
    the refresh entry point of the host framework's base class, is not part
    of the repository.  The spec has [sendCommand] trigger one [refresh()]
    whose failure does not roll back the command's reported success:
    awaiting the entry point runs the poll once, and a poll that fails is
    recorded for the entities (they read it back as [last_update_success],
    see [available] in [light.py]) instead of being raised to the caller. *)
Definition refresh_absorbing {S} (env : Env S) : M (coordinator S) unit :=
  try_except (_async_update_data env ;;; ret tt) (fun _ => ret tt).

End Coordinator.


(** ** The transport facade ([src/marspro/api.py]) *)

Module Api.

(** Constants of [const.py]. *)
Definition API_BASE_URL : string := "https://api.marspro.com".
Definition API_VERSION : string := "v1".
Definition BLE_CHARACTERISTIC_UUID : string := "0000ffe1-0000-1000-8000-00805f9b34fb".

(** A request on the [aiohttp] session.  The [Authorization] header
    [Bearer <token>] is recorded by the token it carries. *)
Inductive http_request : Type :=
  | Post (url : string) (json : dict) (bearer : option val)
  | Get (url : string) (bearer : val).

(** What came back: the status line and [await response.json()]. *)
Record http_response : Type := {
  status : Z;
  json_body : outcome val;
}.

(** Every exchange with the outside, in the order it happened. *)
Inductive io_event : Type :=
  | EvHttp (req : http_request)
  | EvBleConnect (mac : string)
  | EvBleRead (uuid : string)
  | EvBleWrite (uuid : string) (payload : list Z).

(** The outside: the cloud server and the BLE link.  Each answer may depend
    on everything exchanged so far. *)
Record World : Type := {
  http : list io_event -> http_request -> outcome http_response;
  ble_connect : list io_event -> string -> outcome unit;
  ble_is_connected : list io_event -> bool;
  ble_read : list io_event -> string -> outcome (list Z);
  ble_write : list io_event -> string -> list Z -> outcome unit;
}.

(** [self] of [MarsProAPI].  [session] tells whether [self.session] is set,
    [ble_client] holds the address the current [BleakClient] was built for. *)
Record api : Type := {
  email : string;
  password : string;
  use_cloud : bool;
  ble_mac : option string;
  session : bool;
  ble_client : option string;
  auth_token : val;
  trace : list io_event;
}.

(** [MarsProAPI(email, password, use_cloud, ble_mac)]. *)
Definition init (email password : string) (use_cloud : bool) (ble_mac : option string) : api :=
  {| email := email; password := password; use_cloud := use_cloud; ble_mac := ble_mac;
     session := false; ble_client := None; auth_token := VNone; trace := [] |}.

Definition with_trace (t : list io_event) (self : api) : api :=
  {| email := email self; password := password self; use_cloud := use_cloud self;
     ble_mac := ble_mac self; session := session self; ble_client := ble_client self;
     auth_token := auth_token self; trace := t |}.

Definition with_auth_token (tok : val) (self : api) : api :=
  {| email := email self; password := password self; use_cloud := use_cloud self;
     ble_mac := ble_mac self; session := session self; ble_client := ble_client self;
     auth_token := tok; trace := trace self |}.

Definition with_ble_client (c : option string) (self : api) : api :=
  {| email := email self; password := password self; use_cloud := use_cloud self;
     ble_mac := ble_mac self; session := session self; ble_client := c;
     auth_token := auth_token self; trace := trace self |}.

Definition lift {A} (r : outcome A) : M api A := fun self => (r, self).

(** [data.get(key, dflt)] on a decoded JSON payload: only a dictionary has
    [get]. *)
Definition py_get (data : val) (key : string) (dflt : val) : outcome val :=
  match data with
  | VDict d => Return (dict_get_or d key dflt)
  | _ => Raise (Exn AttributeError "object has no attribute 'get'")
  end.

(** [bytes(items)]: every item an integer in [range(0, 256)]. *)
Fixpoint py_bytes (items : list val) : outcome (list Z) :=
  match items with
  | [] => Return []
  | item :: rest =>
      match item with
      | VInt z =>
          if ((0 <=? z) && (z <? 256))%Z then
            match py_bytes rest with
            | Return bs => Return (z :: bs)
            | Raise e => Raise e
            end
          else Raise (Exn ValueError "bytes must be in range(0, 256)")
      | VBool b =>
          match py_bytes rest with
          | Return bs => Return ((if b then 1%Z else 0%Z) :: bs)
          | Raise e => Raise e
          end
      | _ => Raise (Exn TypeError "object cannot be interpreted as an integer")
      end
  end.

(** [data[i]] on [bytes]. *)
Definition py_index (data : list Z) (i : nat) : outcome Z :=
  match data !! i with
  | Some b => Return b
  | None => Raise (Exn IndexError "index out of range")
  end.

Section WithWorld.

Variable w : World.

(** *** Exchanges with the outside *)

Definition io_http (req : http_request) : M api http_response :=
  fun self => (http w (trace self) req, with_trace (trace self ++ [EvHttp req]) self).

Definition io_ble_connect (mac : string) : M api unit :=
  fun self => (ble_connect w (trace self) mac, with_trace (trace self ++ [EvBleConnect mac]) self).

Definition io_ble_read (uuid : string) : M api (list Z) :=
  fun self => (ble_read w (trace self) uuid, with_trace (trace self ++ [EvBleRead uuid]) self).

Definition io_ble_write (uuid : string) (payload : list Z) : M api unit :=
  fun self =>
    (ble_write w (trace self) uuid payload,
     with_trace (trace self ++ [EvBleWrite uuid payload]) self).

(** [not self.session or not self.auth_token]. *)
Definition needs_authentication (self : api) : bool :=
  negb (session self) || negb (truthy (auth_token self)).

(** [not self.ble_client or not self.ble_client.is_connected]. *)
Definition needs_ble_connection (self : api) : bool :=
  match ble_client self with
  | None => true
  | Some _ => negb (ble_is_connected w (trace self))
  end.

(** *** Authentication and connection *)

Definition _authenticate : M api unit :=
  has_session <-- gets session ;;
  if negb has_session then raise (Exn RuntimeError "Session not initialized")
  else
    auth_data <-- gets (fun self =>
      ({[ "email" := VStr (email self); "password" := VStr (password self) ]} : dict)) ;;
    try_except
      (response <-- io_http (Post (API_BASE_URL +:+ "/" +:+ API_VERSION +:+ "/auth/login")
                                  auth_data None) ;;
       if (status response =? 200)%Z then
         data <-- lift (json_body response) ;;
         token <-- lift (py_get data "token" VNone) ;;
         modify (with_auth_token token) ;;;
         if negb (truthy token) then raise (Exn ValueError "No auth token in response")
         else ret tt
       else
         raise (Exn ValueError ("Authentication failed: " +:+ pretty (status response))))
      (fun ex => raise ex).

Definition _connect_ble : M api unit :=
  mac <-- gets ble_mac ;;
  match mac with
  | None => raise (Exn ValueError "BLE MAC address not provided")
  | Some addr =>
      if String.eqb addr "" then raise (Exn ValueError "BLE MAC address not provided")
      else
        try_except
          (modify (with_ble_client (Some addr)) ;;;
           io_ble_connect addr)
          (fun ex => raise ex)
  end.

Definition authenticate_if_needed : M api unit :=
  needed <-- gets needs_authentication ;;
  if needed then _authenticate else ret tt.

Definition connect_ble_if_needed : M api unit :=
  needed <-- gets needs_ble_connection ;;
  if needed then _connect_ble else ret tt.

(** *** Listing devices *)

Definition _get_devices_cloud : M api val :=
  authenticate_if_needed ;;;
  token <-- gets auth_token ;;
  try_except
    (response <-- io_http (Get (API_BASE_URL +:+ "/" +:+ API_VERSION +:+ "/devices") token) ;;
     if (status response =? 200)%Z then
       data <-- lift (json_body response) ;;
       lift (py_get data "devices" (VList []))
     else
       raise (Exn ValueError ("Failed to get devices: " +:+ pretty (status response))))
    (fun ex => raise ex).

Definition _get_devices_ble : M api val :=
  connect_ble_if_needed ;;;
  try_except
    (device_info <-- io_ble_read BLE_CHARACTERISTIC_UUID ;;
     mac <-- gets ble_mac ;;
     let mac_val := from_option VStr VNone mac in
     let device : dict :=
       {[ "id" := mac_val;
          "name" := VStr ("MarsPro Device (" +:+ default "None" mac +:+ ")");
          "type" := VStr "light";
          "status" := VStr "online";
          "mac" := mac_val ]} in
     ret (VList [VDict device]))
    (fun ex => raise ex).

Definition get_devices : M api val :=
  cloud <-- gets use_cloud ;;
  if cloud then _get_devices_cloud else _get_devices_ble.

(** *** Sending commands *)

Definition _send_command_cloud (device_id command : string) (kwargs : dict) : M api val :=
  authenticate_if_needed ;;;
  token <-- gets auth_token ;;
  let payload : dict :=
    kwargs ∪ {[ "device_id" := VStr device_id; "command" := VStr command ]} in
  try_except
    (response <-- io_http (Post (API_BASE_URL +:+ "/" +:+ API_VERSION +:+ "/devices/"
                                   +:+ device_id +:+ "/control")
                                payload (Some token)) ;;
     if (status response =? 200)%Z then lift (json_body response)
     else raise (Exn ValueError ("Command failed: " +:+ pretty (status response))))
    (fun ex => raise ex).

Definition _build_ble_command (command : string) (kwargs : dict) : outcome (list Z) :=
  if String.eqb command "power_on" then Return [1; 1]%Z
  else if String.eqb command "power_off" then Return [1; 0]%Z
  else if String.eqb command "set_brightness" then
    let brightness := dict_get_or kwargs "brightness" (VInt 100) in
    py_bytes [VInt 2; brightness]
  else Raise (Exn ValueError ("Unknown command: " +:+ command)).

Definition _send_command_ble (device_id command : string) (kwargs : dict) : M api val :=
  connect_ble_if_needed ;;;
  try_except
    (payload <-- lift (_build_ble_command command kwargs) ;;
     io_ble_write BLE_CHARACTERISTIC_UUID payload ;;;
     ret (VDict {[ "status" := VStr "success"; "command" := VStr command ]}))
    (fun ex => raise ex).

Definition send_command (device_id command : string) (kwargs : dict) : M api val :=
  cloud <-- gets use_cloud ;;
  if cloud then _send_command_cloud device_id command kwargs
  else _send_command_ble device_id command kwargs.

(** *** Reading the status *)

Definition _get_device_status_cloud (device_id : string) : M api val :=
  authenticate_if_needed ;;;
  token <-- gets auth_token ;;
  try_except
    (response <-- io_http (Get (API_BASE_URL +:+ "/" +:+ API_VERSION +:+ "/devices/"
                                  +:+ device_id +:+ "/status") token) ;;
     if (status response =? 200)%Z then lift (json_body response)
     else raise (Exn ValueError ("Failed to get status: " +:+ pretty (status response))))
    (fun ex => raise ex).

(** The status layout: byte 0 is the power state, byte 1 the brightness. *)
Definition parse_status (status_data : list Z) : outcome dict :=
  match py_index status_data 0 with
  | Raise e => Raise e
  | Return b0 =>
      let power := if (b0 =? 1)%Z then "on" else "off" in
      let brightness := if 1 <? length status_data then py_index status_data 1
                        else Return 100%Z in
      match brightness with
      | Raise e => Raise e
      | Return b =>
          Return {[ "power" := VStr power; "brightness" := VInt b; "online" := VBool true ]}
      end
  end.

Definition _get_device_status_ble (device_id : string) : M api dict :=
  connect_ble_if_needed ;;;
  try_except
    (status_data <-- io_ble_read BLE_CHARACTERISTIC_UUID ;;
     lift (parse_status status_data))
    (fun ex => raise ex).

Definition get_device_status (device_id : string) : M api val :=
  cloud <-- gets use_cloud ;;
  if cloud then _get_device_status_cloud device_id
  else (status <-- _get_device_status_ble device_id ;; ret (VDict status)).

(** *** Testing the connection *)

Definition with_session (b : bool) (self : api) : api :=
  {| email := email self; password := password self; use_cloud := use_cloud self;
     ble_mac := ble_mac self; session := b; ble_client := ble_client self;
     auth_token := auth_token self; trace := trace self |}.

Definition _test_cloud_connection : M api bool :=
  has_session <-- gets session ;;
  (if negb has_session then modify (with_session true) else ret tt) ;;;
  try_except
    ((* Try to authenticate *)
     _authenticate ;;;
     ret true)
    (fun ex => ret false).

(** [not self.ble_mac]. *)
Definition lacks_ble_mac (self : api) : bool :=
  match ble_mac self with
  | None => true
  | Some addr => String.eqb addr ""
  end.

Definition _test_ble_connection : M api bool :=
  no_mac <-- gets lacks_ble_mac ;;
  if no_mac then ret false
  else
    try_except
      ((* Try to connect to the device *)
       _connect_ble ;;;
       ret true)
      (fun ex => ret false).

Definition test_connection : M api bool :=
  try_except
    (cloud <-- gets use_cloud ;;
     if cloud then _test_cloud_connection else _test_ble_connection)
    (fun ex => raise ex).

(** *** What goes over the wire *)

(** The exchange [connect_ble_if_needed] performs from [self]: none when the
    link is up or no address is configured, one connection attempt otherwise. *)
Definition connection_attempt (self : api) : list io_event :=
  if needs_ble_connection self then
    match ble_mac self with
    | Some addr => if String.eqb addr "" then [] else [EvBleConnect addr]
    | None => []
    end
  else [].

(** The login exchange of [_authenticate] and the listing exchange of
    [_get_devices_cloud]. *)
Definition login_request (self : api) : http_request :=
  Post (API_BASE_URL +:+ "/" +:+ API_VERSION +:+ "/auth/login")
       {[ "email" := VStr (email self); "password" := VStr (password self) ]} None.

Definition devices_request (token : val) : http_request :=
  Get (API_BASE_URL +:+ "/" +:+ API_VERSION +:+ "/devices") token.

(** The record [_get_devices_ble] builds, and the answer [_send_command_ble]
    gives. *)
Definition ble_device_record (self : api) : dict :=
  {[ "id" := from_option VStr VNone (ble_mac self);
     "name" := VStr ("MarsPro Device (" +:+ default "None" (ble_mac self) +:+ ")");
     "type" := VStr "light";
     "status" := VStr "online";
     "mac" := from_option VStr VNone (ble_mac self) ]}.

Definition ble_command_answer (command : string) : dict :=
  {[ "status" := VStr "success"; "command" := VStr command ]}.

(** The requests of [_send_command_cloud] and [_get_device_status_cloud]. *)
Definition control_request (device_id command : string) (kwargs : dict) (token : val)
  : http_request :=
  Post (API_BASE_URL +:+ "/" +:+ API_VERSION +:+ "/devices/" +:+ device_id +:+ "/control")
       (kwargs ∪ {[ "device_id" := VStr device_id; "command" := VStr command ]})
       (Some token).

Definition status_request (device_id : string) (token : val) : http_request :=
  Get (API_BASE_URL +:+ "/" +:+ API_VERSION +:+ "/devices/" +:+ device_id +:+ "/status") token.

End WithWorld.

End Api.


(** ** The stand-alone BLE client ([src/marspro/ble_client_standalone.py]) *)

Module BleClient.

(** *** [struct.pack] *)

(** [struct.pack('B', v)]: one unsigned byte. *)
Definition pack_B (v : val) : outcome (list Z) :=
  match v with
  | VInt z =>
      if ((0 <=? z) && (z <? 256))%Z then Return [z]
      else Raise (Exn StructError "ubyte format requires 0 <= number <= 255")
  | VBool b => Return [if b then 1%Z else 0%Z]
  | _ => Raise (Exn StructError "required argument is not an integer")
  end.

Definition sign_bit (s : bool) : Z := if s then 2147483648%Z else 0%Z.

(** The binary32 image of a binary64 number, rounded to nearest even: sign,
    8 exponent bits, 23 fraction bits. *)
Definition binary32_bits (x : spec_float) : outcome Z :=
  match x with
  | S754_zero s => Return (sign_bit s)
  | S754_infinity s => Return (sign_bit s + 2139095040)%Z
  | S754_nan => Return 2143289344%Z
  | S754_finite s m e =>
      match binary_round 24 128 s m e with
      | S754_zero s' => Return (sign_bit s')
      | S754_finite s' m' e' =>
          if (Z.pos m' <? 8388608)%Z then Return (sign_bit s' + Z.pos m')%Z
          else Return (sign_bit s' + (e' + 150) * 8388608 + (Z.pos m' - 8388608))%Z
      | S754_infinity _ => Raise (Exn OverflowError "float too large to pack with f format")
      | S754_nan => Return 2143289344%Z
      end
  end.

(** [float(z)] for an integer [z]. *)
Definition float_of_int (z : Z) : outcome spec_float :=
  match z with
  | Z0 => Return (S754_zero false)
  | Z.pos p =>
      match binary_round 53 1024 false p 0 with
      | S754_infinity _ => Raise (Exn OverflowError "int too large to convert to float")
      | x => Return x
      end
  | Z.neg p =>
      match binary_round 53 1024 true p 0 with
      | S754_infinity _ => Raise (Exn OverflowError "int too large to convert to float")
      | x => Return x
      end
  end.

Definition little_endian4 (bits : Z) : list Z :=
  [bits mod 256; (bits / 256) mod 256; (bits / 65536) mod 256; (bits / 16777216) mod 256]%Z.

(** [struct.pack('f', v)] on a little-endian host. *)
Definition pack_f (v : val) : outcome (list Z) :=
  let number :=
    match v with
    | VFloat f => Return (Prim2SF f)
    | VInt z => float_of_int z
    | VBool b => float_of_int (if b then 1 else 0)
    | _ => Raise (Exn StructError "required argument is not a float")
    end in
  match number with
  | Raise e => Raise e
  | Return x =>
      match binary32_bits x with
      | Raise e => Raise e
      | Return bits => Return (little_endian4 bits)
      end
  end.

(** *** Data *)

Record characteristic : Type := {
  char_uuid : string;
  properties : list string;
}.

Record service : Type := {
  service_uuid : string;
  characteristics : list characteristic;
}.

Record MarsProSensorData : Type := {
  temperature : option float;
  humidity : option float;
  co2 : option float;
  vpd : option float;
  ppfd : option float;
  wind_speed : option float;
  wind_pressure : option float;
  air_volume : option float;
  timestamp : option float;
}.

(** What a caller may hold after a decode or before an encode: a parameter
    dictionary or a sensor record.  Two objects of different classes are never
    equal. *)
Inductive pyobj : Type :=
  | ObjDict (d : dict)
  | ObjSensorData (s : MarsProSensorData).

Definition COMMAND_CHAR_UUID : string := "0000ffe1-0000-1000-8000-00805f9b34fb".
Definition DATA_CHAR_UUID : string := "0000ffe2-0000-1000-8000-00805f9b34fb".
Definition STATUS_CHAR_UUID : string := "0000ffe4-0000-1000-8000-00805f9b34fb".

Definition CMD_GET_DEVICE_INFO : Z := 1.
Definition CMD_GET_SENSOR_DATA : Z := 2.
Definition CMD_SET_LIGHT : Z := 16.
Definition CMD_SET_UV_LIGHT : Z := 17.
Definition CMD_SET_VEGE_LIGHT : Z := 18.
Definition CMD_SET_PPFD : Z := 19.
Definition CMD_SET_TEMPERATURE : Z := 32.
Definition CMD_SET_HUMIDITY : Z := 33.
Definition CMD_SET_CO2 : Z := 34.
Definition CMD_SET_FAN : Z := 48.
Definition CMD_SET_WIND : Z := 49.
Definition CMD_SET_DRIP : Z := 64.
Definition CMD_SET_HEATING_PAD : Z := 80.
Definition CMD_SET_SOCKET : Z := 96.
Definition CMD_SET_AUTO_MODE : Z := 112.
Definition CMD_SET_TIMER : Z := 128.

(** The sixteen command codes of the class. *)
Definition command_codes : list Z :=
  [CMD_GET_DEVICE_INFO; CMD_GET_SENSOR_DATA; CMD_SET_LIGHT; CMD_SET_UV_LIGHT;
   CMD_SET_VEGE_LIGHT; CMD_SET_PPFD; CMD_SET_TEMPERATURE; CMD_SET_HUMIDITY;
   CMD_SET_CO2; CMD_SET_FAN; CMD_SET_WIND; CMD_SET_DRIP; CMD_SET_HEATING_PAD;
   CMD_SET_SOCKET; CMD_SET_AUTO_MODE; CMD_SET_TIMER].

(** Calls on the [BleakClient], in order. *)
Inductive io_event : Type :=
  | EvConnect (address : string)
  | EvGetServices
  | EvDisconnect
  | EvWrite (uuid : string) (data : list Z).

(** The radio side.  [bleak_client a] is the truth value of the object
    [BleakClient(a)] (true for bleak's own class). *)
Record World : Type := {
  bleak_client : string -> bool;
  client_connect : list io_event -> string -> outcome unit;
  client_get_services : list io_event -> outcome (list service);
  client_disconnect : list io_event -> outcome unit;
  client_write_gatt_char : list io_event -> string -> list Z -> outcome unit;
  loop_time : list io_event -> float;
}.

(** [self] of [MarsProBLEClient]; [client] holds the truth value of
    [self.client] once it is assigned. *)
Record ble_client : Type := {
  device_address : string;
  client : option bool;
  _connected : bool;
  _services : gmap string service;
  _characteristics : gmap string characteristic;
  trace : list io_event;
}.

(** [MarsProBLEClient(device_address)]. *)
Definition init (device_address : string) : ble_client :=
  {| device_address := device_address; client := None; _connected := false;
     _services := ∅; _characteristics := ∅; trace := [] |}.

Definition with_trace (t : list io_event) (self : ble_client) : ble_client :=
  {| device_address := device_address self; client := client self;
     _connected := _connected self; _services := _services self;
     _characteristics := _characteristics self; trace := t |}.

Definition with_client (c : option bool) (self : ble_client) : ble_client :=
  {| device_address := device_address self; client := c;
     _connected := _connected self; _services := _services self;
     _characteristics := _characteristics self; trace := trace self |}.

Definition with_connected (b : bool) (self : ble_client) : ble_client :=
  {| device_address := device_address self; client := client self;
     _connected := b; _services := _services self;
     _characteristics := _characteristics self; trace := trace self |}.

(** The body of [for service in services:]. *)
Definition store_service (self : ble_client) (svc : service) : ble_client :=
  {| device_address := device_address self; client := client self;
     _connected := _connected self;
     _services := <[service_uuid svc := svc]> (_services self);
     _characteristics :=
       fold_left (fun chars c => <[char_uuid c := c]> chars)
                 (characteristics svc) (_characteristics self);
     trace := trace self |}.

Definition store_services (services : list service) (self : ble_client) : ble_client :=
  fold_left store_service services self.

(** [if self.client:] / [not self.client]. *)
Definition client_truthy (self : ble_client) : bool := default false (client self).

(** *** Command packets *)

Definition _build_command_packet (command_type : Z) (data : dict) : outcome (list Z) :=
  if negb ((0 <=? command_type) && (command_type <? 256))%Z
  then Raise (Exn ValueError "byte must be in range(0, 256)")
  else
    let packet := [command_type] in
    if (command_type =? CMD_SET_LIGHT)%Z then
      let intensity := dict_get_or data "intensity" (VInt 0) in
      match pack_B intensity with
      | Return body => Return (packet ++ body)
      | Raise e => Raise e
      end
    else if (command_type =? CMD_SET_TEMPERATURE)%Z then
      let temp := dict_get_or data "temperature" (VInt 0) in
      match pack_f temp with
      | Return body => Return (packet ++ body)
      | Raise e => Raise e
      end
    else if (command_type =? CMD_SET_HUMIDITY)%Z then
      let humidity := dict_get_or data "humidity" (VInt 0) in
      match pack_f humidity with
      | Return body => Return (packet ++ body)
      | Raise e => Raise e
      end
    else Return packet.

Section WithWorld.

Variable w : World.

(** The only decoder of the class: a placeholder that does not look at the
    frame. *)
Definition _parse_sensor_data (self : ble_client) (data : list Z) : MarsProSensorData :=
  {| temperature := Some 25.5%float;
     humidity := Some 60.0%float;
     co2 := Some 400.0%float;
     vpd := Some 1.2%float;
     ppfd := Some 500.0%float;
     wind_speed := Some 2.5%float;
     wind_pressure := Some 1013.25%float;
     air_volume := Some 100.0%float;
     timestamp := Some (loop_time w (trace self)) |}.

(** *** The connection *)

Definition io_connect (address : string) : M ble_client unit :=
  fun self =>
    (client_connect w (trace self) address,
     with_trace (trace self ++ [EvConnect address]) self).

Definition io_get_services : M ble_client (list service) :=
  fun self =>
    (client_get_services w (trace self), with_trace (trace self ++ [EvGetServices]) self).

Definition io_disconnect : M ble_client unit :=
  fun self =>
    (client_disconnect w (trace self), with_trace (trace self ++ [EvDisconnect]) self).

Definition io_write_gatt_char (uuid : string) (data : list Z) : M ble_client unit :=
  fun self =>
    (client_write_gatt_char w (trace self) uuid data,
     with_trace (trace self ++ [EvWrite uuid data]) self).

Definition connect : M ble_client bool :=
  try_except
    (address <-- gets device_address ;;
     modify (with_client (Some (bleak_client w address))) ;;;
     has_client <-- gets client_truthy ;;
     if has_client then
       io_connect address ;;;
       (* Discover services *)
       services <-- io_get_services ;;
       (* Store services and characteristics *)
       modify (store_services services) ;;;
       modify (with_connected true) ;;;
       ret true
     else ret false)
    (fun e => ret false).

Definition disconnect : M ble_client unit :=
  ready <-- gets (fun self => client_truthy self && _connected self) ;;
  if ready then
    io_disconnect ;;;
    modify (with_connected false)
  else ret tt.

Definition send_command (command_type : Z) (data : dict) : M ble_client bool :=
  unready <-- gets (fun self => negb (_connected self) || negb (client_truthy self)) ;;
  if unready then ret false
  else
    try_except
      (command_data <-- (fun self => (_build_command_packet command_type data, self)) ;;
       known <-- gets (fun self => bool_decide (is_Some (_characteristics self !! COMMAND_CHAR_UUID))) ;;
       if known then
         io_write_gatt_char COMMAND_CHAR_UUID command_data ;;;
         ret true
       else ret false)
      (fun e => ret false).

(** *** Control helpers *)

(** [if duration:] on an [Optional[int]]. *)
Definition int_given (v : option Z) : bool :=
  match v with
  | Some z => negb (z =? 0)%Z
  | None => false
  end.

Definition control_light (light_type : string) (intensity : Z) (duration : option Z)
  : M ble_client bool :=
  let command_data : dict :=
    {[ "light_type" := VStr light_type; "intensity" := VInt intensity ]} in
  let command_data :=
    if int_given duration then <["duration" := from_option VInt VNone duration]> command_data
    else command_data in
  send_command CMD_SET_LIGHT command_data.

(** [if x is not None: command_data[key] = x]. *)
Definition put_if_given {A} (key : string) (inj : A -> val) (x : option A) (d : dict) : dict :=
  match x with
  | Some a => <[key := inj a]> d
  | None => d
  end.

Definition control_climate (temperature humidity : option float) (fan_speed : option Z)
  : M ble_client bool :=
  let command_data : dict :=
    put_if_given "fan_speed" VInt fan_speed
      (put_if_given "humidity" VFloat humidity
         (put_if_given "temperature" VFloat temperature ∅)) in
  send_command CMD_SET_TEMPERATURE command_data.

Definition control_water (drip_rate flow_rate : option float) : M ble_client bool :=
  let command_data : dict :=
    put_if_given "flow_rate" VFloat flow_rate
      (put_if_given "drip_rate" VFloat drip_rate ∅) in
  send_command CMD_SET_DRIP command_data.

(** [is_connected]. *)
Definition is_connected (self : ble_client) : bool := _connected self.

End WithWorld.

End BleClient.


(** ** The coordinator over the local transport *)

Module LocalTransport.

(** What [self.api] is to the coordinator when the client is configured with
    [use_cloud = False]: the three public operations are their BLE variants.
    A successful listing answers the one record it built, a successful
    command its fixed answer. *)
Definition env (w : Api.World) (clock : Api.api -> float) : Coordinator.Env Api.api :=
  {| Coordinator.api_get_devices := fun self =>
       match Api._get_devices_ble w self with
       | (Return _, self') => (Return [Api.ble_device_record self'], self')
       | (Raise ex, self') => (Raise ex, self')
       end;
     Coordinator.api_get_device_status := fun device_id self =>
       Api._get_device_status_ble w device_id self;
     Coordinator.api_send_command := fun device_id command kwargs self =>
       match Api._send_command_ble w device_id command kwargs self with
       | (Return _, self') => (Return (Api.ble_command_answer command), self')
       | (Raise ex, self') => (Raise ex, self')
       end;
     Coordinator.loop_time := clock |}.

End LocalTransport.


(** ** What a refresh lists *)

(** A listed record is within the declared typing of device ids when its
    ["id"] is a [str], or is falsy (absent, [None], [""], [0], ...) so that
    [if device_id:] passes the record by. *)
Definition id_is_str_or_falsy (device : dict) : bool :=
  match dict_get device "id" with
  | VStr _ => true
  | other => negb (truthy other)
  end.

Definition ids_are_str_or_falsy (devs : list dict) : Prop :=
  Forall (fun device => id_is_str_or_falsy device = true) devs.

(** The registry key a listed record is stored under, if any: its ["id"]
    when [if device_id:] lets it in.  On a listing within the typing above
    this is the code's own test. *)
Definition device_key (device : dict) : option string :=
  match dict_get device "id" with
  | VStr k => if truthy (VStr k) then Some k else None
  | _ => None
  end.

Definition listed_ids (devs : list dict) : gset string :=
  list_to_set (omap device_key devs).

(** The record the loop stores under [k] for the listed [device], given the
    outcome of its status read. *)
Definition stored_record {S} (self : Coordinator.coordinator S) (device : dict) (k : string)
    (read : outcome dict) : dict :=
  match read with
  | Return status => status ∪ device
  | Raise _ => default device (Coordinator.devices self !! k)
  end.

(** ** Scenarios *)

(** A scripted API for the coordinator: one fixed answer to the listing, one
    answer per device id to the status read; the state counts the calls. *)
Definition scripted_env (listing : outcome (list dict)) (read_status : string -> outcome dict)
  : Coordinator.Env nat :=
  {| Coordinator.api_get_devices := fun n => (listing, S n);
     Coordinator.api_get_device_status := fun device_id n => (read_status device_id, S n);
     Coordinator.api_send_command := fun device_id command kwargs n =>
       (Return ({[ "status" := VStr "success"; "command" := VStr command ]} : dict), S n);
     Coordinator.loop_time := fun n => 0%float |}.

Definition lamp_listed : dict := {[ "id" := VStr "A"; "name" := VStr "Lamp" ]}.
Definition fan_listed : dict := {[ "id" := VStr "B"; "name" := VStr "Fan" ]}.
Definition lamp_status : dict := {[ "power" := VStr "on"; "brightness" := VInt 80 ]}.
Definition lamp_before : dict :=
  {[ "id" := VStr "A"; "name" := VStr "Lamp"; "power" := VStr "off" ]}.
Definition fan_before : dict :=
  {[ "id" := VStr "B"; "name" := VStr "Fan"; "power" := VStr "on" ]}.

Definition unreachable : exn := Exn BleakError "device unreachable".

(** The lamp answers, the fan does not. *)
Definition fan_silent (device_id : string) : outcome dict :=
  if String.eqb device_id "A" then Return lamp_status else Raise unreachable.

Definition two_known : Coordinator.coordinator nat :=
  {| Coordinator.api_state := 0; Coordinator.devices := {[ "A" := lamp_before; "B" := fan_before ]} |}.

Definition env_fan_silent : Coordinator.Env nat :=
  scripted_env (Return [lamp_listed; fan_listed]) fan_silent.

Definition env_offline : Coordinator.Env nat :=
  scripted_env (Raise unreachable) fan_silent.

Definition env_nothing_listed : Coordinator.Env nat :=
  scripted_env (Return []) fan_silent.

Definition env_lamp_only : Coordinator.Env nat :=
  scripted_env (Return [lamp_listed]) fan_silent.

(** A scripted outside for [Api]: the link comes up on the first attempt or
    not at all, every read yields [frame], every request gets [reply]. *)
Definition is_ble_connect (ev : Api.io_event) : bool :=
  match ev with Api.EvBleConnect _ => true | _ => false end.

Definition scripted_world (link : outcome unit) (frame : outcome (list Z))
    (reply : Api.http_request -> outcome Api.http_response) : Api.World :=
  {| Api.http := fun _ req => reply req;
     Api.ble_connect := fun _ _ => link;
     Api.ble_is_connected := fun tr => is_return link && existsb is_ble_connect tr;
     Api.ble_read := fun _ _ => frame;
     Api.ble_write := fun _ _ _ => Return tt |}.

Definition no_cloud (req : Api.http_request) : outcome Api.http_response :=
  Raise (Exn ClientError "cannot connect to host").

(** A server that rejects every request with 401. *)
Definition always_401 (req : Api.http_request) : outcome Api.http_response :=
  Return {| Api.status := 401; Api.json_body := Return (VDict ∅) |}.

(** A server that accepts the login and lists no device. *)
Definition friendly_server (req : Api.http_request) : outcome Api.http_response :=
  match req with
  | Api.Post _ _ _ =>
      Return {| Api.status := 200;
                Api.json_body := Return (VDict {[ "token" := VStr "tok-1" ]}) |}
  | Api.Get _ _ =>
      Return {| Api.status := 200;
                Api.json_body := Return (VDict {[ "devices" := VList [] ]}) |}
  end.

Definition local_api : Api.api :=
  Api.init "user@example.com" "secret" false (Some "AA:BB:CC:DD:EE:FF").

(** A cloud client whose session is open, without and with a cached token. *)
Definition cloud_api_fresh : Api.api :=
  {| Api.email := "user@example.com"; Api.password := "secret"; Api.use_cloud := true;
     Api.ble_mac := None; Api.session := true; Api.ble_client := None;
     Api.auth_token := VNone; Api.trace := [] |}.

Definition cloud_api_logged_in : Api.api :=
  Api.with_auth_token (VStr "tok-0") cloud_api_fresh.

Definition one_byte_link : Api.World := scripted_world (Return tt) (Return [1%Z]) no_cloud.

(** A radio for [BleClient] that accepts the first connection and refuses
    every later one. *)
Definition is_connect (ev : BleClient.io_event) : bool :=
  match ev with BleClient.EvConnect _ => true | _ => false end.

Definition command_service : BleClient.service :=
  {| BleClient.service_uuid := "0000ffe0-0000-1000-8000-00805f9b34fb";
     BleClient.characteristics :=
       [ {| BleClient.char_uuid := BleClient.COMMAND_CHAR_UUID;
            BleClient.properties := ["write"] |} ] |}.

Definition radio_once : BleClient.World :=
  {| BleClient.bleak_client := fun _ => true;
     BleClient.client_connect := fun tr _ =>
       if existsb is_connect tr then Raise (Exn BleakError "device not found")
       else Return tt;
     BleClient.client_get_services := fun _ => Return [command_service];
     BleClient.client_disconnect := fun _ => Return tt;
     BleClient.client_write_gatt_char := fun _ _ _ => Return tt;
     BleClient.loop_time := fun _ => 0%float |}.

Definition fresh_client : BleClient.ble_client := BleClient.init "00:11:22:33:44:55".

(** A server that accepts the login and then rejects the listing with 401. *)
Definition login_then_401 (req : Api.http_request) : outcome Api.http_response :=
  match req with
  | Api.Post _ _ _ => friendly_server req
  | Api.Get _ _ => always_401 req
  end.

(** A radio that is out of range. *)
Definition radio_off : BleClient.World :=
  {| BleClient.bleak_client := fun _ => true;
     BleClient.client_connect := fun _ _ => Raise (Exn BleakError "device not found");
     BleClient.client_get_services := fun _ => Return [command_service];
     BleClient.client_disconnect := fun _ => Return tt;
     BleClient.client_write_gatt_char := fun _ _ _ => Return tt;
     BleClient.loop_time := fun _ => 0%float |}.

(** A local client whose link is already up. *)
Definition linked_api : Api.api :=
  Api.with_trace [Api.EvBleConnect "AA:BB:CC:DD:EE:FF"]
    (Api.with_ble_client (Some "AA:BB:CC:DD:EE:FF") local_api).



(** ** The light entity ([custom_components/marspro/light.py]) *)

Module Light.

(** Constants of [const.py]. *)
Definition CMD_POWER_ON : string := "power_on".
Definition CMD_POWER_OFF : string := "power_off".
Definition CMD_SET_BRIGHTNESS : string := "set_brightness".
Definition CMD_SET_COLOR : string := "set_color".
Definition STATUS_ON : string := "on".
Definition STATUS_OFF : string := "off".

(** *** Python arithmetic on binary64 *)

(** An integer as an exact operand. *)
Definition exact_int (z : Z) : spec_float :=
  match z with
  | Z0 => S754_zero false
  | Z.pos p => S754_finite false p 0
  | Z.neg p => S754_finite true p 0
  end.

(** [v / d] for a positive integer literal [d]: true division, correctly
    rounded to binary64. *)
Definition py_truediv (v : val) (d : positive) : outcome spec_float :=
  match v with
  | VInt z =>
      match SFdiv 53 1024 (exact_int z) (exact_int (Z.pos d)) with
      | S754_infinity _ =>
          Raise (Exn OverflowError "integer division result too large for a float")
      | q => Return q
      end
  | VBool b => Return (SFdiv 53 1024 (exact_int (if b then 1 else 0)) (exact_int (Z.pos d)))
  | VFloat f => Return (SFdiv 53 1024 (Prim2SF f) (exact_int (Z.pos d)))
  | _ => Raise (Exn TypeError "unsupported operand type(s) for /")
  end.

(** [x * k] for a float [x] and a positive integer literal [k]. *)
Definition py_mul (x : spec_float) (k : positive) : spec_float :=
  SFmul 53 1024 x (exact_int (Z.pos k)).

(** [int(x)] for a float [x]: truncation toward zero. *)
Definition py_int (x : spec_float) : outcome Z :=
  match x with
  | S754_zero _ => Return 0%Z
  | S754_finite s m e =>
      let magnitude :=
        match e with
        | Z0 => Z.pos m
        | Z.pos _ => Z.shiftl (Z.pos m) e
        | Z.neg _ => Z.shiftr (Z.pos m) (- e)
        end in
      Return (if s then (- magnitude)%Z else magnitude)
  | S754_infinity _ => Raise (Exn OverflowError "cannot convert float infinity to integer")
  | S754_nan => Raise (Exn ValueError "cannot convert float NaN to integer")
  end.

(** [int((v / d) * k)]. *)
Definition rescale (v : val) (d k : positive) : outcome Z :=
  match py_truediv v d with
  | Return q => py_int (py_mul q k)
  | Raise ex => Raise ex
  end.

(** *** The entity *)

(** The state attributes of [MarsProLight]. *)
Record light : Type := {
  _attr_is_on : bool;
  _attr_brightness : Z;
}.

(** What [__init__] sets them to. *)
Definition init : light := {| _attr_is_on := false; _attr_brightness := 255 |}.

Definition _update_from_device_data (device_data : dict) : M light unit :=
  (* Update power state *)
  let power := dict_get_or device_data "power" (VStr STATUS_OFF) in
  modify (fun self => {| _attr_is_on := eq_str power STATUS_ON;
                         _attr_brightness := _attr_brightness self |}) ;;;
  (* Update brightness *)
  let brightness := dict_get_or device_data "brightness" (VInt 100) in
  scaled <-- (fun self => (rescale brightness 100 255, self)) ;;
  modify (fun self => {| _attr_is_on := _attr_is_on self; _attr_brightness := scaled |}).

(** The keyword arguments of [async_turn_on] the method looks at. *)
Record turn_on_kwargs : Type := {
  brightness : option val;
  rgb_color : option val;
}.

Section WithCoordinator.

Context {S : Type}.
Variable env : Coordinator.Env S.
Variable async_request_refresh : M (Coordinator.coordinator S) unit.

(** [self.device_id], a [str]. *)
Variable device_id : string.

Definition async_turn_on (kwargs : turn_on_kwargs) : M (Coordinator.coordinator S) unit :=
  try_except
    ((* Send power on command *)
     Coordinator.send_command env async_request_refresh device_id CMD_POWER_ON ∅ ;;;
     (* Handle brightness *)
     match brightness kwargs with
     | Some given =>
         percent <-- (fun self => (rescale given 255 100, self)) ;;
         Coordinator.send_command env async_request_refresh device_id CMD_SET_BRIGHTNESS
           {[ "brightness" := VInt percent ]} ;;;
         ret tt
     | None => ret tt
     end ;;;
     (* Handle color (if supported) *)
     match rgb_color kwargs with
     | Some colour =>
         Coordinator.send_command env async_request_refresh device_id CMD_SET_COLOR
           {[ "rgb_color" := colour ]} ;;;
         ret tt
     | None => ret tt
     end ;;;
     (* Refresh data *)
     async_request_refresh)
    (fun ex => raise ex).

Definition async_turn_off : M (Coordinator.coordinator S) unit :=
  try_except
    (Coordinator.send_command env async_request_refresh device_id CMD_POWER_OFF ∅ ;;;
     async_request_refresh)
    (fun ex => raise ex).

End WithCoordinator.

End Light.


(** ** The device scanner ([src/marspro/ble_client_standalone.py]) *)

Module Scanner.

Inductive MarsProDeviceType : Set := CONTROLLER | SENSOR | ACTUATOR.

Inductive MarsProFeature : Set :=
  LIGHTING | CLIMATE | WATER | SENSORS | AUTOMATION | AIR | HEATING.

Record MarsProDevice : Type := {
  address : string;
  name : string;
  device_type : MarsProDeviceType;
  features : list MarsProFeature;
  firmware_version : option string;
  battery_level : option Z;
  rssi : option Z;
}.

(** What the radio reports of a device in range. *)
Record BLEDevice : Type := {
  ble_address : string;
  ble_name : option string;
  ble_rssi : option Z;
}.

(** [needle in haystack] on strings. *)
Fixpoint contains (needle haystack : string) : bool :=
  String.prefix needle haystack
  || match haystack with
     | EmptyString => false
     | String _ rest => contains needle rest
     end.

(** [x or dflt] for an [Optional[str]]. *)
Definition name_or (x : option string) (dflt : string) : string :=
  match x with
  | Some s => if String.eqb s "" then dflt else s
  | None => dflt
  end.

(** [self] of [MarsProDeviceScanner], with the scans it has run so far. *)
Record scanner : Type := {
  discovered_devices : list MarsProDevice;
  scans : nat;
}.

Definition init : scanner := {| discovered_devices := []; scans := 0 |}.

Section WithRadio.

(** [str.lower]. *)
Variable lower : string -> string.

(** [BleakScanner.discover], by the number of scans run before. *)
Variable discover : nat -> outcome (list BLEDevice).

Definition _is_marspro_device (device : BLEDevice) : bool :=
  let name := name_or (ble_name device) "" in
  contains "marspro" (lower name) || contains "mars" (lower name).

Definition _create_marspro_device (device : BLEDevice) : MarsProDevice :=
  {| address := ble_address device;
     name := name_or (ble_name device) "Unknown MarsPro Device";
     device_type := CONTROLLER;
     features := [LIGHTING; CLIMATE; WATER];
     firmware_version := None;
     battery_level := None;
     rssi := ble_rssi device |}.

(** The body of [for device in devices:]. *)
Definition note_device (self : scanner) (device : BLEDevice) : scanner :=
  if _is_marspro_device device then
    {| discovered_devices := discovered_devices self ++ [_create_marspro_device device];
       scans := scans self |}
  else self.

Definition scan_for_devices : M scanner (list MarsProDevice) :=
  try_except
    (devices <-- (fun self =>
                    (discover (scans self),
                     {| discovered_devices := discovered_devices self;
                        scans := Datatypes.S (scans self) |})) ;;
     modify (fun self => fold_left note_device devices self) ;;;
     gets discovered_devices)
    (fun e => ret []).

Definition get_discovered_devices : M scanner (list MarsProDevice) :=
  gets discovered_devices.

End WithRadio.

End Scanner.

(** A third, new device, and a transport on which no status read succeeds. *)
Definition pump_listed : dict := {[ "id" := VStr "C"; "name" := VStr "Pump" ]}.

Definition env_three_listed : Coordinator.Env nat :=
  scripted_env (Return [lamp_listed; fan_listed; pump_listed]) fan_silent.

Definition all_silent (device_id : string) : outcome dict := Raise unreachable.

Definition env_all_silent : Coordinator.Env nat :=
  scripted_env (Return [lamp_listed; fan_listed]) all_silent.

(** A local client without an address, a cloud client just constructed, and
    a coordinator over the linked local client. *)
Definition addressless_api : Api.api := Api.init "user@example.com" "secret" false None.

Definition new_cloud_api : Api.api := Api.init "user@example.com" "secret" true None.

Definition friendly_cloud : Api.World := scripted_world (Return tt) (Return []) friendly_server.

Definition still_clock (self : Api.api) : float := 0%float.

Definition local_coordinator : Coordinator.coordinator Api.api :=
  {| Coordinator.api_state := linked_api; Coordinator.devices := ∅ |}.

(** The fresh client once it has connected to [radio_once]. *)
Definition linked_client : BleClient.ble_client :=
  (BleClient.connect radio_once fresh_client).2.

(** A lamp that is on at half brightness, and one that reports nonsense. *)
Definition lamp_half : dict := {[ "power" := VStr "on"; "brightness" := VInt 50 ]}.

Definition lamp_odd : dict := {[ "power" := VStr "on"; "brightness" := VStr "high" ]}.

Definition colour_kwargs : Light.turn_on_kwargs :=
  {| Light.brightness := Some (VInt 128);
     Light.rgb_color := Some (VList [VInt 255; VInt 0; VInt 0]) |}.

(** Lower-casing of ASCII names, and two devices in range. *)
Definition ascii_lower_char (c : Ascii.ascii) : Ascii.ascii :=
  let n := Ascii.nat_of_ascii c in
  if (65 <=? n)%nat && (n <=? 90)%nat then Ascii.ascii_of_nat (n + 32) else c.

Fixpoint ascii_lower (s : string) : string :=
  match s with
  | EmptyString => EmptyString
  | String c rest => String (ascii_lower_char c) (ascii_lower rest)
  end.

Definition grow_light : Scanner.BLEDevice :=
  {| Scanner.ble_address := "00:11:22:33:44:55";
     Scanner.ble_name := Some "MarsPro-1234";
     Scanner.ble_rssi := Some (-60)%Z |}.

Definition nameless_beacon : Scanner.BLEDevice :=
  {| Scanner.ble_address := "66:77:88:99:AA:BB";
     Scanner.ble_name := None;
     Scanner.ble_rssi := Some (-80)%Z |}.

(** * Properties *)

(** ** The coordinator *)

Section CoordinatorFacts.

Context {S : Type}.
Variable env : Coordinator.Env S.

Import Coordinator.

Lemma listed_ids_cons (device : dict) (rest : list dict) :
  listed_ids (device :: rest)
  = match device_key device with
    | Some k => {[ k ]} ∪ listed_ids rest
    | None => listed_ids rest
    end.
Proof. unfold listed_ids. cbn. by destruct (device_key device). Qed.

(** The per-device loop cannot fail, does not touch the registry, and adds
    exactly the listed keys to its accumulator. *)
Lemma update_loop_returns (devs : list dict) :
  forall (acc : gmap string dict) (self : coordinator S),
  exists acc' s',
    update_loop env devs acc self
      = (Return acc', {| api_state := s'; devices := devices self |})
    /\ dom acc' = dom acc ∪ listed_ids devs.
Proof.
  induction devs as [|device rest IH]; intros acc self.
  - exists acc, (api_state self). split.
    + destruct self; reflexivity.
    + unfold listed_ids; simpl. set_solver.
  - cbn [update_loop]. rewrite listed_ids_cons. unfold device_key.
    assert (Hskip : exists acc' s',
      update_loop env rest acc self
        = (Return acc', {| api_state := s'; devices := devices self |})
      /\ dom acc' = dom acc ∪ listed_ids rest).
    { destruct (IH acc self) as (acc' & s' & Hrun & Hdom). by exists acc', s'. }
    destruct (dict_get device "id") as [|b|z|f|k|l|d] eqn:Hid;
      try (destruct (truthy _); exact Hskip).
    destruct (truthy (VStr k)) eqn:Htruthy.
    + unfold bind at 1, try_except, bind, call, gets, ret.
      destruct (api_get_device_status env k (api_state self)) as [[status|ex] s1] eqn:Hstatus;
        cbn [devices api_state].
      * destruct (IH (<[k := status ∪ device]> acc)
                     {| api_state := s1; devices := devices self |})
          as (acc' & s' & Hrun & Hdom).
        exists acc', s'. split; [exact Hrun|].
        rewrite Hdom, dom_insert_L. set_solver.
      * destruct (devices self !! k) as [previous|] eqn:Hknown.
        -- destruct (IH (<[k := previous]> acc)
                       {| api_state := s1; devices := devices self |})
             as (acc' & s' & Hrun & Hdom).
           exists acc', s'. split; [exact Hrun|].
           rewrite Hdom, dom_insert_L. set_solver.
        -- destruct (IH (<[k := device]> acc)
                       {| api_state := s1; devices := devices self |})
             as (acc' & s' & Hrun & Hdom).
           exists acc', s'. split; [exact Hrun|].
           rewrite Hdom, dom_insert_L. set_solver.
    + exact Hskip.
Qed.

(** The outcome of a refresh, case by case on the listing. *)
Lemma refresh_listing_failed (self : coordinator S) (ex : exn) (s1 : S) :
  api_get_devices env (api_state self) = (Raise ex, s1) ->
  _async_update_data env self
  = (Raise (Exn UpdateFailed ("Failed to update MarsPro data: " +:+ exn_msg ex)),
     {| api_state := s1; devices := devices self |}).
Proof.
  intros Hlist. unfold _async_update_data, try_except, bind, call, raise.
  by rewrite Hlist.
Qed.

Lemma refresh_listing_ok (self : coordinator S) (devs : list dict) (s1 : S) :
  api_get_devices env (api_state self) = (Return devs, s1) ->
  exists updated s2,
    update_loop env devs ∅ {| api_state := s1; devices := devices self |}
      = (Return updated, {| api_state := s2; devices := devices self |})
    /\ _async_update_data env self
        = (Return {| ud_devices := updated; ud_last_update := loop_time env s2 |},
           {| api_state := s2; devices := updated |}).
Proof.
  intros Hlist.
  destruct (update_loop_returns devs ∅ {| api_state := s1; devices := devices self |})
    as (updated & s2 & Hloop & _).
  cbn [devices] in Hloop.
  exists updated, s2. split; [exact Hloop|].
  unfold _async_update_data, try_except, bind at 1, call.
  rewrite Hlist. unfold bind at 1. rewrite Hloop. reflexivity.
Qed.

(** What [send_command] answers once the transport accepted the command:
    whatever the awaited refresh call does. *)
Lemma send_command_after_success (refresh : M (coordinator S) unit)
    (self : coordinator S) (device_id command : string) (kwargs result : dict) (s1 : S) :
  api_send_command env device_id command kwargs (api_state self) = (Return result, s1) ->
  send_command env refresh device_id command kwargs self
  = match refresh {| api_state := s1; devices := devices self |} with
    | (Return _, self') => (Return result, self')
    | (Raise ex, self') => (Raise ex, self')
    end.
Proof.
  intros Hsend. unfold send_command, try_except, bind, call, raise, ret.
  rewrite Hsend.
  by destruct (refresh _) as [[[]|ex] self'].
Qed.

(** C1. Partial failure: in one refresh over two known devices A and B, in
    either listing order, where the status read of A succeeds and the status
    read of B raises, the refresh succeeds, the registry maps A to the listed
    record updated with the status just read, and maps B to the very record it
    held before; these two are all its keys. *)
Theorem partial_failure_keeps_previous_record
    (self : coordinator S) (a b : string) (dA dB sA oldA oldB : dict)
    (devs : list dict) (ex : exn) (s1 s2 s3 : S) :
  a <> b ->
  dict_get dA "id" = VStr a -> truthy (VStr a) = true ->
  dict_get dB "id" = VStr b -> truthy (VStr b) = true ->
  devices self !! a = Some oldA ->
  devices self !! b = Some oldB ->
  api_get_devices env (api_state self) = (Return devs, s1) ->
  (devs = [dA; dB]
   /\ api_get_device_status env a s1 = (Return sA, s2)
   /\ api_get_device_status env b s2 = (Raise ex, s3))
  \/ (devs = [dB; dA]
      /\ api_get_device_status env b s1 = (Raise ex, s2)
      /\ api_get_device_status env a s2 = (Return sA, s3)) ->
  let after := _async_update_data env self in
  is_return (after.1) = true
  /\ devices (after.2) !! a = Some (sA ∪ dA)
  /\ devices (after.2) !! b = Some oldB
  /\ dom (devices (after.2)) = {[ a; b ]}.
Proof.
  intros Hab HidA HtA HidB HtB HoldA HoldB Hlist Hreads after.
  destruct (refresh_listing_ok self devs s1 Hlist) as (updated & s4 & Hloop & Hrun).
  subst after. rewrite Hrun. cbn [fst snd devices is_return].
  split; [reflexivity|].
  destruct Hreads as [(-> & HreadA & HreadB) | (-> & HreadB & HreadA)];
    cbn [update_loop] in Hloop;
    rewrite HidA, HidB, HtA, HtB in Hloop;
    unfold bind, try_except, call, gets, ret in Hloop;
    cbn [api_state devices] in Hloop;
    rewrite ?HreadA, ?HreadB in Hloop; cbn [api_state devices] in Hloop;
    rewrite ?HreadA, ?HreadB, ?HoldB in Hloop; cbn [api_state devices] in Hloop;
    rewrite ?HreadA, ?HreadB, ?HoldB in Hloop;
    injection Hloop as <- _.
  - rewrite lookup_insert_ne by congruence.
    rewrite !lookup_insert_eq. rewrite !dom_insert_L, dom_empty_L.
    repeat split. set_solver.
  - rewrite lookup_insert_eq. rewrite lookup_insert_ne by done.
    rewrite lookup_insert_eq. rewrite !dom_insert_L, dom_empty_L.
    repeat split. set_solver.
Qed.

(** C2. List failure: whenever the device listing raises, the refresh raises
    [UpdateFailed] and the registry is what it was before the call. *)
Theorem list_failure_leaves_registry
    (self : coordinator S) (ex : exn) (s1 : S) :
  api_get_devices env (api_state self) = (Raise ex, s1) ->
  let after := _async_update_data env self in
  (exists msg, after.1 = Raise (Exn UpdateFailed msg))
  /\ devices (after.2) = devices self.
Proof.
  intros Hlist after. subst after.
  rewrite (refresh_listing_failed self ex s1 Hlist). cbn [fst snd devices].
  split; [eexists; reflexivity | reflexivity].
Qed.

(** A poll fails in one way only: with [UpdateFailed], and with the
    registry as it was. *)
Lemma failed_poll_keeps_registry (self : coordinator S) :
  let polled := _async_update_data env self in
  is_return (polled.1) = false ->
  (exists msg, polled.1 = Raise (Exn UpdateFailed msg))
  /\ devices (polled.2) = devices self.
Proof.
  intros polled. subst polled.
  destruct (api_get_devices env (api_state self)) as [[devs|ex] s1] eqn:Hlist.
  - destruct (refresh_listing_ok self devs s1 Hlist) as (updated & s2 & _ & Hrun).
    rewrite Hrun. discriminate.
  - rewrite (refresh_listing_failed self ex s1 Hlist). cbn [fst snd devices].
    intros _. split; [eexists; reflexivity | reflexivity].
Qed.

(** C4. A command the transport accepted, through the framework's refresh
    entry point: the command call reports the transport's result whatever the
    poll that follows does, the poll having run once on the state the command
    left; and when that poll fails, it failed with [UpdateFailed] and the
    registry is at its pre-command contents. *)
Theorem send_command_when_refresh_fails
    (self : coordinator S) (device_id command : string) (kwargs result : dict) (s1 : S) :
  api_send_command env device_id command kwargs (api_state self) = (Return result, s1) ->
  let polled := _async_update_data env {| api_state := s1; devices := devices self |} in
  let after := send_command env (refresh_absorbing env) device_id command kwargs self in
  after = (Return result, polled.2)
  /\ (is_return (polled.1) = false ->
      (exists msg, polled.1 = Raise (Exn UpdateFailed msg))
      /\ devices (after.2) = devices self).
Proof.
  intros Hsend polled after.
  assert (Hafter : after = (Return result, polled.2)).
  { subst after polled.
    rewrite (send_command_after_success _ self device_id command kwargs result s1 Hsend).
    unfold refresh_absorbing, try_except, bind, ret.
    by destruct (_async_update_data env _) as [[data|ex] self']. }
  split; [exact Hafter|].
  intros Hfailed. rewrite Hafter. cbn [snd].
  exact (failed_poll_keeps_registry {| api_state := s1; devices := devices self |} Hfailed).
Qed.

(** C5, as the code has it. A refresh whose listing succeeds, with ids
    that are strings (or falsy), leaves in the registry exactly the ids of
    the listed records: a known device stays if and only if it is still
    listed, whatever its status read did. A refresh whose listing fails
    raises [UpdateFailed] and leaves the registry as it was. *)
Theorem refresh_keeps_exactly_the_listed
    (self : coordinator S) (listing : outcome (list dict)) (s1 : S) :
  api_get_devices env (api_state self) = (listing, s1) ->
  (forall devs, listing = Return devs -> ids_are_str_or_falsy devs) ->
  let after := _async_update_data env self in
  match listing with
  | Return devs =>
      is_return (after.1) = true
      /\ dom (devices (after.2)) = listed_ids devs
      /\ (forall k, is_Some (devices self !! k) ->
          is_Some (devices (after.2) !! k) <-> k ∈ listed_ids devs)
  | Raise _ =>
      (exists msg, after.1 = Raise (Exn UpdateFailed msg))
      /\ devices (after.2) = devices self
  end.
Proof.
  intros Hlist _ after. subst after.
  destruct listing as [devs|ex].
  - destruct (refresh_listing_ok self devs s1 Hlist) as (updated & s2 & Hloop & Hrun).
    rewrite Hrun. cbn [fst snd devices is_return]. split; [reflexivity|].
    destruct (update_loop_returns devs ∅ {| api_state := s1; devices := devices self |})
      as (updated' & s2' & Hloop' & Hdom).
    cbn [devices] in Hloop'. rewrite Hloop in Hloop'. injection Hloop' as -> _.
    split; [rewrite Hdom; set_solver|].
    intros k _. rewrite <- elem_of_dom, Hdom. set_solver.
  - rewrite (refresh_listing_failed self ex s1 Hlist). cbn [fst snd devices].
    split; [eexists; reflexivity | reflexivity].
Qed.

(** C10. Registry reads: for every id, [get_device] returns without raising,
    the registered record when the registry holds the id and the empty
    record when it does not; [get_devices] and [get_devices_by_type] return
    without raising too; and each of the three leaves the coordinator
    (registry and collaborators' state) exactly as it was. *)
Theorem registry_reads_are_total_and_pure
    (self : coordinator S) (device_id device_type : string) :
  (exists record,
     get_device device_id self = (Return record, self)
     /\ match devices self !! device_id with
        | Some known => record = known
        | None => record = ∅
        end)
  /\ (exists all, get_devices self = (Return all, self))
  /\ (exists some, get_devices_by_type device_type self = (Return some, self)).
Proof.
  unfold get_device, get_devices, get_devices_by_type, gets.
  split; [|split; eexists; reflexivity].
  eexists. split; [reflexivity|].
  by destruct (devices self !! device_id).
Qed.

End CoordinatorFacts.

(** The partial-failure scenario: the lamp (A) answers, the fan (B) does not. *)
Lemma partial_failure_scenario :
  let after := Coordinator._async_update_data env_fan_silent two_known in
  is_return (after.1) = true
  /\ Coordinator.devices (after.2) !! "A" = Some (lamp_status ∪ lamp_listed)
  /\ Coordinator.devices (after.2) !! "B" = Some fan_before
  /\ dom (Coordinator.devices (after.2)) = {[ "A"; "B" ]}.
Proof.
  apply (partial_failure_keeps_previous_record env_fan_silent two_known "A" "B"
           lamp_listed fan_listed lamp_status lamp_before fan_before
           [lamp_listed; fan_listed] unreachable 1 2 3);
    try reflexivity; try discriminate.
  left. repeat split; reflexivity.
Defined.

(** The list-failure scenario: the transport is offline. *)
Lemma list_failure_scenario :
  let after := Coordinator._async_update_data env_offline two_known in
  (exists msg, after.1 = Raise (Exn UpdateFailed msg))
  /\ Coordinator.devices (after.2) = Coordinator.devices two_known.
Proof.
  apply (list_failure_leaves_registry env_offline two_known unreachable 1).
  reflexivity.
Defined.

(** The command is accepted, the poll after it finds the transport offline. *)
Lemma command_then_offline_scenario :
  let result : dict := {[ "status" := VStr "success"; "command" := VStr "power_off" ]} in
  let polled := Coordinator._async_update_data env_offline
                  {| Coordinator.api_state := 1;
                     Coordinator.devices := Coordinator.devices two_known |} in
  let after := Coordinator.send_command env_offline (Coordinator.refresh_absorbing env_offline)
                 "A" "power_off" ∅ two_known in
  polled.1 = Raise (Exn UpdateFailed "Failed to update MarsPro data: device unreachable")
  /\ after.1 = Return result
  /\ Coordinator.devices (after.2) = Coordinator.devices two_known.
Proof.
  destruct (send_command_when_refresh_fails env_offline two_known "A" "power_off" ∅
              {[ "status" := VStr "success"; "command" := VStr "power_off" ]} 1 eq_refl)
    as [Hafter Hfailed].
  cbv zeta. split; [reflexivity|].
  split; [by rewrite Hafter|].
  by apply Hfailed.
Defined.

(** Against C5 as stated: the fan (B) is known; a successful refresh whose
    listing holds only the lamp removes B from the registry, although no
    removal was ever signalled. *)
Lemma refresh_drops_unlisted_device :
  let after := Coordinator._async_update_data env_lamp_only two_known in
  Coordinator.devices two_known !! "B" = Some fan_before
  /\ is_return (after.1) = true
  /\ Coordinator.devices (after.2) !! "B" = None
  /\ dom (Coordinator.devices (after.2)) = {[ "A" ]}.
Proof. cbv zeta. repeat split; vm_compute; reflexivity. Qed.

(** The lamp is listed alone: the registry afterwards holds the lamp only. *)
Lemma lamp_only_scenario :
  let after := Coordinator._async_update_data env_lamp_only two_known in
  is_return (after.1) = true
  /\ dom (Coordinator.devices (after.2)) = listed_ids [lamp_listed]
  /\ (forall k, is_Some (Coordinator.devices two_known !! k) ->
      is_Some (Coordinator.devices (after.2) !! k) <-> k ∈ listed_ids [lamp_listed]).
Proof.
  apply (refresh_keeps_exactly_the_listed env_lamp_only two_known
           (Return [lamp_listed]) 1).
  - reflexivity.
  - intros devs [= <-]. unfold ids_are_str_or_falsy. by repeat constructor.
Defined.

(** Reading an id the registry holds and one it does not. *)
Lemma registry_reads_scenario :
  (Coordinator.get_device "A" two_known = (Return lamp_before, two_known)
   /\ Coordinator.get_device "C" two_known = (Return ∅, two_known))
  /\ (exists all, Coordinator.get_devices two_known = (Return all, two_known))
  /\ (exists some, Coordinator.get_devices_by_type "light" two_known = (Return some, two_known)).
Proof.
  destruct (registry_reads_are_total_and_pure two_known "A" "light")
    as ((known & HreadA & HisA) & Hall & Htyped).
  destruct (registry_reads_are_total_and_pure two_known "C" "light")
    as ((absent & HreadC & HisC) & _ & _).
  split; [split|split; assumption].
  - rewrite HreadA. by rewrite HisA.
  - rewrite HreadC. by rewrite HisC.
Defined.

(** ** The transport facade *)

Section ApiFacts.

Variable w : Api.World.

Import Api.

Lemma unknown_command_raises (command : string) (kwargs : dict) :
  command <> "power_on" -> command <> "power_off" -> command <> "set_brightness" ->
  _build_ble_command command kwargs
  = Raise (Exn ValueError ("Unknown command: " +:+ command)).
Proof.
  intros Hon Hoff Hset. unfold _build_ble_command.
  apply String.eqb_neq in Hon, Hoff, Hset.
  by rewrite Hon, Hoff, Hset.
Qed.

(** The lazy connection: its outcome and the exchange it performs. *)
Lemma connect_ble_if_needed_trace (self : api) :
  trace (connect_ble_if_needed w self).2 = trace self ++ connection_attempt w self.
Proof.
  unfold connect_ble_if_needed, connection_attempt, bind, gets.
  destruct (needs_ble_connection w self); cbn [ret snd]; [|by rewrite app_nil_r].
  unfold _connect_ble, bind, gets.
  destruct (ble_mac self) as [addr|]; cbn [raise snd]; [|by rewrite app_nil_r].
  destruct (String.eqb addr ""); cbn [raise snd]; [by rewrite app_nil_r|].
  unfold try_except, bind, modify, io_ble_connect, raise. cbn [trace with_ble_client].
  by destruct (ble_connect w (trace self) addr).
Qed.

Lemma connect_ble_if_needed_not_needed (self : api) :
  needs_ble_connection w self = false ->
  connect_ble_if_needed w self = (Return tt, self).
Proof.
  intros Hup. unfold connect_ble_if_needed, bind, gets. by rewrite Hup.
Qed.

(** C7, as the code has it. Once the link is up and the status
    characteristic yields a frame: an empty frame raises [IndexError]; a
    one-byte frame decodes to the power state with the brightness defaulted
    to 100; a longer frame decodes to the power state of byte 0 and the
    brightness of byte 1. *)
Theorem status_frame_decoding
    (self self1 : api) (device_id : string) (frame : list Z) :
  connect_ble_if_needed w self = (Return tt, self1) ->
  ble_read w (trace self1) BLE_CHARACTERISTIC_UUID = Return frame ->
  (_get_device_status_ble w device_id self).1
  = match frame with
    | [] => Raise (Exn IndexError "index out of range")
    | [b0] =>
        Return {[ "power" := VStr (if (b0 =? 1)%Z then "on" else "off");
                  "brightness" := VInt 100;
                  "online" := VBool true ]}
    | b0 :: b1 :: _ =>
        Return {[ "power" := VStr (if (b0 =? 1)%Z then "on" else "off");
                  "brightness" := VInt b1;
                  "online" := VBool true ]}
    end.
Proof.
  intros Hlink Hread.
  unfold _get_device_status_ble, bind at 1. rewrite Hlink.
  unfold try_except, bind, io_ble_read, lift, raise. rewrite Hread.
  destruct frame as [|b0 [|b1 rest]]; reflexivity.
Qed.

(** C8, as the code has it. On the local transport a command outside
    power_on / power_off / set_brightness always ends in an exception and is
    never written to the characteristic: the only exchange it can cause is
    the connection attempt of a client whose link is not up, and with the
    link up it is rejected with [ValueError] before any exchange. *)
Theorem unknown_ble_command_never_written
    (self : api) (device_id command : string) (kwargs : dict) :
  use_cloud self = false ->
  command <> "power_on" -> command <> "power_off" -> command <> "set_brightness" ->
  let after := send_command w device_id command kwargs self in
  is_return (after.1) = false
  /\ trace (after.2) = trace self ++ connection_attempt w self
  /\ (needs_ble_connection w self = false ->
      after = (Raise (Exn ValueError ("Unknown command: " +:+ command)), self)).
Proof.
  intros Hlocal Hon Hoff Hset after. subst after.
  pose proof (unknown_command_raises command kwargs Hon Hoff Hset) as Hbuild.
  pose proof (connect_ble_if_needed_trace self) as Htrace.
  assert (Hrun : send_command w device_id command kwargs self
                 = match connect_ble_if_needed w self with
                   | (Return _, self1) =>
                       (Raise (Exn ValueError ("Unknown command: " +:+ command)), self1)
                   | (Raise ex, self1) => (Raise ex, self1)
                   end).
  { unfold send_command, bind at 1, gets. rewrite Hlocal.
    unfold _send_command_ble, bind at 1.
    destruct (connect_ble_if_needed w self) as [[[]|ex] self1]; [|reflexivity].
    unfold try_except, bind, lift, raise. by rewrite Hbuild. }
  rewrite Hrun. split; [|split].
  - by destruct (connect_ble_if_needed w self) as [[[]|ex] self1].
  - rewrite <- Htrace. by destruct (connect_ble_if_needed w self) as [[[]|ex] self1].
  - intros Hup. by rewrite connect_ble_if_needed_not_needed.
Qed.

Lemma authenticate_ok (self : api) (d : dict) (tok : val) :
  session self = true ->
  http w (trace self) (login_request self)
    = Return {| status := 200; json_body := Return (VDict d) |} ->
  d !! "token" = Some tok ->
  truthy tok = true ->
  _authenticate w self
  = (Return tt,
     with_auth_token tok (with_trace (trace self ++ [EvHttp (login_request self)]) self)).
Proof.
  intros Hsess Hlogin Htok Htruthy. unfold login_request in *.
  unfold _authenticate, try_except, bind, gets, io_http, lift, modify, raise, ret.
  rewrite Hsess. cbn [negb]. rewrite Hlogin.
  cbn [status json_body]. change (200 =? 200)%Z with true. cbv beta iota.
  unfold py_get, dict_get_or. rewrite Htok. cbn [default]. unfold id. rewrite Htruthy.
  reflexivity.
Qed.

(** Every listing ends with exactly one more exchange: the listing request
    carrying the token cached at that point. *)
Lemma listing_exchange_trace (self : api) :
  let after :=
    try_except
      (response <-- io_http w (devices_request (auth_token self)) ;;
       if (status response =? 200)%Z then
         data <-- lift (json_body response) ;;
         lift (py_get data "devices" (VList []))
       else
         raise (Exn ValueError ("Failed to get devices: " +:+ pretty (status response))))
      (fun ex => raise ex) self in
  trace (after.2) = trace self ++ [EvHttp (devices_request (auth_token self))].
Proof.
  cbv zeta. unfold try_except, bind, io_http, lift, raise.
  destruct (http w (trace self) _) as [response|ex]; [|reflexivity].
  destruct (status response =? 200)%Z; [|reflexivity].
  destruct (json_body response) as [data|ex]; [|reflexivity].
  by destruct (py_get data "devices" (VList [])).
Qed.

(** C9, as the code has it. With the session open: a listing made without a
    cached token first performs the login exchange and then the listing
    exchange, carrying the token just obtained; a listing made with a cached
    token that the server answers with any status other than 200 (a 401
    included) raises [ValueError] at once: that one exchange is all that
    happened, and the cached token is still in place. *)
Theorem cloud_listing_authentication
    (fresh cached : api) (tok : val) (d : dict) (resp : http_response) :
  session fresh = true ->
  truthy (auth_token fresh) = false ->
  http w (trace fresh) (login_request fresh)
    = Return {| status := 200; json_body := Return (VDict d) |} ->
  d !! "token" = Some tok ->
  truthy tok = true ->
  session cached = true ->
  truthy (auth_token cached) = true ->
  http w (trace cached) (devices_request (auth_token cached)) = Return resp ->
  status resp <> 200%Z ->
  trace (_get_devices_cloud w fresh).2
    = trace fresh ++ [EvHttp (login_request fresh); EvHttp (devices_request tok)]
  /\ _get_devices_cloud w cached
     = (Raise (Exn ValueError ("Failed to get devices: " +:+ pretty (status resp))),
        with_trace (trace cached ++ [EvHttp (devices_request (auth_token cached))]) cached).
Proof.
  intros Hsess Hnotok Hlogin Htok Htruthy Hsess' Hcached Hlist Hstatus.
  split.
  - unfold _get_devices_cloud, authenticate_if_needed.
    unfold bind at 1. unfold bind at 1. unfold gets at 1.
    unfold needs_authentication. rewrite Hsess, Hnotok. cbn [negb orb].
    rewrite (authenticate_ok fresh d tok Hsess Hlogin Htok Htruthy).
    unfold bind at 1, gets at 1.
    pose proof (listing_exchange_trace
      (with_auth_token tok
         (with_trace (trace fresh ++ [EvHttp (login_request fresh)]) fresh))) as Hex.
    cbv zeta in Hex. cbn [auth_token with_auth_token] in Hex |- *.
    unfold devices_request in Hex |- *. rewrite Hex.
    cbn [trace with_trace with_auth_token]. by rewrite <- app_assoc.
  - unfold devices_request in Hlist.
    unfold _get_devices_cloud, authenticate_if_needed, needs_authentication.
    unfold bind at 1. unfold bind at 1. unfold gets at 1.
    rewrite Hsess', Hcached. cbn [negb orb ret].
    unfold bind at 1, gets at 1.
    unfold try_except, bind, io_http, devices_request. rewrite Hlist.
    apply Z.eqb_neq in Hstatus. rewrite Hstatus. reflexivity.
Qed.

End ApiFacts.

(** The one-byte status frame. *)
Lemma one_byte_frame_scenario :
  (Api._get_device_status_ble one_byte_link "AA:BB:CC:DD:EE:FF" local_api).1
  = Return {[ "power" := VStr "on"; "brightness" := VInt 100; "online" := VBool true ]}.
Proof.
  apply (status_frame_decoding one_byte_link local_api
           (Api.with_trace [Api.EvBleConnect "AA:BB:CC:DD:EE:FF"]
              (Api.with_ble_client (Some "AA:BB:CC:DD:EE:FF") local_api))
           "AA:BB:CC:DD:EE:FF" [1%Z]); reflexivity.
Defined.

(** Against C7 as stated: a status frame of one byte, shorter than the two
    bytes of the status layout, is decoded instead of being refused, with 100
    substituted for the missing brightness. *)
Lemma short_status_frame_is_decoded :
  let after := Api._get_device_status_ble one_byte_link "AA:BB:CC:DD:EE:FF" local_api in
  Api.ble_read one_byte_link [Api.EvBleConnect "AA:BB:CC:DD:EE:FF"] Api.BLE_CHARACTERISTIC_UUID
    = Return [1%Z]
  /\ length [1%Z] < 2
  /\ is_return (after.1) = true
  /\ after.1 = Return {[ "power" := VStr "on"; "brightness" := VInt 100;
                         "online" := VBool true ]}.
Proof. cbv zeta. repeat split; vm_compute; reflexivity. Qed.

(** An unknown command on a client whose link is up: refused on the spot. *)
Lemma unknown_command_scenario :
  Api.send_command one_byte_link "AA:BB:CC:DD:EE:FF" "blink" ∅ linked_api
  = (Raise (Exn ValueError ("Unknown command: " +:+ "blink")), linked_api).
Proof.
  destruct (unknown_ble_command_never_written one_byte_link linked_api
              "AA:BB:CC:DD:EE:FF" "blink" ∅) as (_ & _ & Hrefused);
    [reflexivity | discriminate ..|].
  exact (Hrefused eq_refl).
Defined.

(** Against C8 as stated: "blink" is no known command, yet before it is
    rejected the client has opened the BLE connection. *)
Lemma unknown_command_connects_first :
  let after := Api.send_command one_byte_link "AA:BB:CC:DD:EE:FF" "blink" ∅ local_api in
  Api.trace local_api = []
  /\ after.1 = Raise (Exn ValueError "Unknown command: blink")
  /\ Api.trace (after.2) = [Api.EvBleConnect "AA:BB:CC:DD:EE:FF"].
Proof. cbv zeta. repeat split; vm_compute; reflexivity. Qed.

(** A fresh cloud client logs in first; a logged-in one meets a 401. *)
Lemma cloud_listing_scenario :
  let w := scripted_world (Return tt) (Return []) login_then_401 in
  Api.trace (Api._get_devices_cloud w cloud_api_fresh).2
    = Api.trace cloud_api_fresh
      ++ [Api.EvHttp (Api.login_request cloud_api_fresh);
          Api.EvHttp (Api.devices_request (VStr "tok-1"))]
  /\ Api._get_devices_cloud w cloud_api_logged_in
     = (Raise (Exn ValueError ("Failed to get devices: " +:+ pretty 401%Z)),
        Api.with_trace
          (Api.trace cloud_api_logged_in
           ++ [Api.EvHttp (Api.devices_request (Api.auth_token cloud_api_logged_in))])
          cloud_api_logged_in).
Proof.
  apply (cloud_listing_authentication (scripted_world (Return tt) (Return []) login_then_401)
           cloud_api_fresh cloud_api_logged_in (VStr "tok-1")
           {[ "token" := VStr "tok-1" ]}
           {| Api.status := 401; Api.json_body := Return (VDict ∅) |});
    try reflexivity.
  discriminate.
Defined.

(** Against C9 as stated: a logged-in client whose listing is answered with
    401 raises at once. The whole conversation is that single request: no
    second login, no retry; the rejected token is still cached; and the
    exception is a [ValueError]. *)
Lemma a_401_is_not_retried :
  let w := scripted_world (Return tt) (Return []) always_401 in
  let after := Api._get_devices_cloud w cloud_api_logged_in in
  after.1 = Raise (Exn ValueError "Failed to get devices: 401")
  /\ Api.trace (after.2) = [Api.EvHttp (Api.devices_request (VStr "tok-0"))]
  /\ Api.auth_token (after.2) = VStr "tok-0".
Proof. cbv zeta. repeat split; vm_compute; reflexivity. Qed.

(** ** The stand-alone BLE client *)

Section BleClientFacts.

Variable w : BleClient.World.

Import BleClient.

Lemma light_packet (intensity : Z) :
  _build_command_packet CMD_SET_LIGHT {[ "intensity" := VInt intensity ]}
  = if ((0 <=? intensity) && (intensity <? 256))%Z
    then Return [CMD_SET_LIGHT; intensity]
    else Raise (Exn StructError "ubyte format requires 0 <= number <= 255").
Proof.
  unfold _build_command_packet, dict_get_or.
  rewrite lookup_singleton_eq. cbn [default]. unfold id, pack_B.
  change (negb ((0 <=? CMD_SET_LIGHT)%Z && (CMD_SET_LIGHT <? 256)%Z)) with false.
  change (CMD_SET_LIGHT =? CMD_SET_LIGHT)%Z with true. cbv iota.
  by destruct ((0 <=? intensity)%Z && (intensity <? 256)%Z).
Qed.

(** A command code without a body layout is encoded as its code alone. *)
Lemma bare_packet (command_type : Z) (data : dict) :
  command_type ∈ command_codes ->
  command_type <> CMD_SET_LIGHT ->
  command_type <> CMD_SET_TEMPERATURE ->
  command_type <> CMD_SET_HUMIDITY ->
  _build_command_packet command_type data = Return [command_type].
Proof.
  intros Hcode Hlight Htemp Hhum. unfold command_codes in Hcode.
  repeat (apply elem_of_cons in Hcode as [-> | Hcode]);
    try reflexivity; try congruence.
  by apply elem_of_nil in Hcode.
Qed.

(** C3, as the code has it. Encoding CMD_SET_LIGHT with an integer intensity
    yields the two bytes [0x10, intensity] when 0 <= intensity <= 255 (so
    intensity 50 gives [0x10, 0x32]) and is refused with an error otherwise; a
    command code other than light, temperature and humidity is encoded as its
    code alone, whatever the parameters; and the decoder does not invert any
    of this: it returns the same sensor record for every frame, and a sensor
    record is never a parameter dictionary. *)
Theorem light_packet_and_placeholder_decoder
    (self : ble_client) (intensity command_type : Z) (data : dict) (frame frame' : list Z) :
  _build_command_packet CMD_SET_LIGHT {[ "intensity" := VInt intensity ]}
  = (if ((0 <=? intensity) && (intensity <? 256))%Z
     then Return [16%Z; intensity]
     else Raise (Exn StructError "ubyte format requires 0 <= number <= 255"))
  /\ _build_command_packet CMD_SET_LIGHT {[ "intensity" := VInt 50 ]} = Return [16%Z; 50%Z]
  /\ (command_type ∈ command_codes ->
      command_type <> CMD_SET_LIGHT ->
      command_type <> CMD_SET_TEMPERATURE ->
      command_type <> CMD_SET_HUMIDITY ->
      _build_command_packet command_type data = Return [command_type])
  /\ _parse_sensor_data w self frame = _parse_sensor_data w self frame'
  /\ (forall params : dict, ObjSensorData (_parse_sensor_data w self frame) <> ObjDict params).
Proof.
  split; [exact (light_packet intensity)|].
  split; [exact (light_packet 50)|].
  split; [exact (bare_packet command_type data)|].
  split; [reflexivity|].
  intros params Heq. discriminate Heq.
Qed.

Lemma store_services_connected (services : list service) :
  forall st, _connected (store_services services st) = _connected st.
Proof.
  induction services as [|svc services IH]; intros st; [reflexivity|].
  cbn [store_services fold_left]. fold (store_services services (store_service st svc)).
  by rewrite IH.
Qed.

Lemma store_services_trace (services : list service) :
  forall st, trace (store_services services st) = trace st.
Proof.
  induction services as [|svc services IH]; intros st; [reflexivity|].
  cbn [store_services fold_left]. fold (store_services services (store_service st svc)).
  by rewrite IH.
Qed.

(** [connect], step by step. *)
Lemma connect_unfold (self : ble_client) :
  let address := device_address self in
  connect w self
  = if bleak_client w address then
      match client_connect w (trace self) address with
      | Return _ =>
          match client_get_services w (trace self ++ [EvConnect address]) with
          | Return services =>
              (Return true,
               with_connected true
                 (store_services services
                    (with_trace (trace self ++ [EvConnect address; EvGetServices])
                       (with_client (Some true) self))))
          | Raise _ =>
              (Return false,
               with_trace (trace self ++ [EvConnect address; EvGetServices])
                 (with_client (Some true) self))
          end
      | Raise _ =>
          (Return false,
           with_trace (trace self ++ [EvConnect address]) (with_client (Some true) self))
      end
    else (Return false, with_client (Some false) self).
Proof.
  cbv zeta.
  unfold connect, try_except, bind, gets, modify, ret, io_connect, io_get_services.
  unfold client_truthy. cbn [client with_client default]. unfold id.
  destruct (bleak_client w (device_address self)); cbv beta; [|reflexivity].
  cbn [trace with_client with_trace].
  destruct (client_connect w (trace self) (device_address self)) as [[]|ex]; [|reflexivity].
  destruct (client_get_services w (trace self ++ [EvConnect (device_address self)]))
    as [services|ex]; unfold with_trace, with_client;
    cbn [device_address client _connected _services _characteristics trace];
    rewrite <- app_assoc; reflexivity.
Qed.

(** C6, as the code has it. [connect] never raises: it answers True or
    False. It answers True only when the link was opened and the service
    discovery that followed it returned, in that order, and then the client
    holds the discovered services and is marked connected. When it answers
    False, a client that was not marked connected before the call is not
    marked connected after it. *)
Theorem connect_reports_after_discovery (self : ble_client) :
  let after := connect w self in
  let address := device_address self in
  (after.1 = Return true \/ after.1 = Return false)
  /\ (after.1 = Return true ->
      client_connect w (trace self) address = Return tt
      /\ exists services,
           client_get_services w (trace self ++ [EvConnect address]) = Return services
           /\ trace (after.2) = trace self ++ [EvConnect address; EvGetServices]
           /\ _connected (after.2) = true
           /\ after.2
              = with_connected true
                  (store_services services
                     (with_trace (trace self ++ [EvConnect address; EvGetServices])
                        (with_client (Some true) self))))
  /\ (after.1 = Return false -> _connected self = false -> _connected (after.2) = false).
Proof.
  cbv zeta. rewrite connect_unfold. cbv zeta.
  destruct (bleak_client w (device_address self)).
  - destruct (client_connect w (trace self) (device_address self)) as [[]|ex].
    + destruct (client_get_services w (trace self ++ [EvConnect (device_address self)]))
        as [services|ex]; cbn [fst snd].
      * split; [by left|]. split; [|discriminate].
        intros _. split; [reflexivity|]. exists services.
        split; [reflexivity|]. split; [|split; reflexivity].
        cbn [trace with_connected]. by rewrite store_services_trace.
      * split; [by right|]. split; [discriminate|]. intros _ Hwas. exact Hwas.
    + cbn [fst snd]. split; [by right|]. split; [discriminate|]. intros _ Hwas. exact Hwas.
  - cbn [fst snd]. split; [by right|]. split; [discriminate|]. intros _ Hwas. exact Hwas.
Qed.

End BleClientFacts.

(** The light command at intensity 50, the fan command, and two frames. *)
Lemma light_packet_scenario :
  BleClient._build_command_packet BleClient.CMD_SET_LIGHT {[ "intensity" := VInt 50 ]}
    = Return [16%Z; 50%Z]
  /\ BleClient._build_command_packet BleClient.CMD_SET_FAN {[ "speed" := VInt 3 ]}
     = Return [BleClient.CMD_SET_FAN]
  /\ BleClient._parse_sensor_data radio_once fresh_client [16%Z; 50%Z]
     = BleClient._parse_sensor_data radio_once fresh_client [16%Z; 60%Z].
Proof.
  destruct (light_packet_and_placeholder_decoder radio_once fresh_client 50
              BleClient.CMD_SET_FAN {[ "speed" := VInt 3 ]} [16%Z; 50%Z] [16%Z; 60%Z])
    as (_ & Hlight & Hfan & Hsame & _).
  split; [exact Hlight|]. split; [|exact Hsame].
  apply Hfan; [|discriminate ..].
  unfold BleClient.command_codes. repeat first [apply list_elem_of_here | apply list_elem_of_further].
Defined.

(** Against C3 as stated: the frame encoded for CMD_SET_LIGHT with intensity
    50 is [0x10, 0x32], but decoding it does not give {intensity: 50} back:
    the decoder answers its fixed sensor readings, the same it answers for
    the frame of intensity 60. *)
Lemma light_frame_does_not_round_trip :
  let params : dict := {[ "intensity" := VInt 50 ]} in
  let decoded := BleClient._parse_sensor_data radio_once fresh_client [16%Z; 50%Z] in
  BleClient._build_command_packet BleClient.CMD_SET_LIGHT params = Return [16%Z; 50%Z]
  /\ BleClient.ObjSensorData decoded <> BleClient.ObjDict params
  /\ BleClient.temperature decoded = Some 25.5%float
  /\ decoded = BleClient._parse_sensor_data radio_once fresh_client [16%Z; 60%Z].
Proof.
  cbv zeta. split; [vm_compute; reflexivity|].
  split; [discriminate|]. split; reflexivity.
Qed.

(** A first connection on a fresh client. *)
Lemma first_connection_scenario :
  let after := BleClient.connect radio_once fresh_client in
  after.1 = Return true
  /\ BleClient.trace (after.2)
     = [BleClient.EvConnect "00:11:22:33:44:55"; BleClient.EvGetServices]
  /\ BleClient._connected (after.2) = true.
Proof.
  destruct (connect_reports_after_discovery radio_once fresh_client)
    as (_ & Hready & _).
  cbv zeta in Hready |- *.
  split; [reflexivity|].
  destruct (Hready eq_refl) as (_ & services & _ & Htrace & Hflag & _).
  split; [exact Htrace | exact Hflag].
Defined.

(** Against C6 as stated: a failed connection raises nothing, it answers
    False (first on a fresh client out of range, then on a client that had
    connected before); and in the second case the client is still marked
    connected after the failure. *)
Lemma failed_connect_answers_false :
  let out_of_range := BleClient.connect radio_off fresh_client in
  let first := BleClient.connect radio_once fresh_client in
  let second := BleClient.connect radio_once (first.2) in
  out_of_range.1 = Return false
  /\ first.1 = Return true
  /\ BleClient.client_connect radio_once (BleClient.trace (first.2)) "00:11:22:33:44:55"
     = Raise (Exn BleakError "device not found")
  /\ second.1 = Return false
  /\ BleClient.is_connected (second.2) = true.
Proof. cbv zeta. repeat split; vm_compute; reflexivity. Qed.

(** * Further properties *)

(** ** The coordinator: any number of devices *)

Section CoordinatorLoopFacts.

Context {S : Type}.
Variable env : Coordinator.Env S.

Import Coordinator.

Lemma device_key_Some (device : dict) (k : string) :
  device_key device = Some k ->
  dict_get device "id" = VStr k /\ truthy (VStr k) = true.
Proof.
  unfold device_key. destruct (dict_get device "id") as [|b|z|f|k'|l|d]; try discriminate.
  destruct (truthy (VStr k')) eqn:Htruthy; [|discriminate].
  intros [= ->]. by split.
Qed.

Lemma device_key_None (device : dict) :
  device_key device = None ->
  truthy (dict_get device "id") = false
  \/ forall k, dict_get device "id" <> VStr k.
Proof.
  unfold device_key. destruct (dict_get device "id") as [|b|z|f|k'|l|d];
    try (intros _; right; intros k; discriminate).
  destruct (truthy (VStr k')) eqn:Htruthy; [discriminate|]. by left.
Qed.

Lemma update_loop_keyed (device : dict) (rest : list dict) (k : string)
    (acc : gmap string dict) (self : coordinator S) :
  device_key device = Some k ->
  update_loop env (device :: rest) acc self
  = update_loop env rest
      (<[k := stored_record self device k
                (api_get_device_status env k (api_state self)).1]> acc)
      {| api_state := (api_get_device_status env k (api_state self)).2;
         devices := devices self |}.
Proof.
  intros Hkey. apply device_key_Some in Hkey as [Hid Htruthy].
  cbn [update_loop]. rewrite Hid, Htruthy.
  unfold bind at 1, try_except, bind, call, gets, ret, stored_record.
  destruct (api_get_device_status env k (api_state self)) as [[status|ex] s1];
    cbn [fst snd devices api_state]; [reflexivity|].
  by destruct (devices self !! k).
Qed.

Lemma update_loop_skipped (device : dict) (rest : list dict)
    (acc : gmap string dict) (self : coordinator S) :
  device_key device = None ->
  update_loop env (device :: rest) acc self = update_loop env rest acc self.
Proof.
  intros Hkey. cbn [update_loop].
  destruct (device_key_None device Hkey) as [Hfalsy | Hother].
  - by rewrite Hfalsy.
  - destruct (truthy (dict_get device "id")); [|reflexivity].
    destruct (dict_get device "id") as [|b|z|f|k'|l|d] eqn:Hid; try reflexivity.
    by destruct (Hother k').
Qed.

Section FixedAnswers.

(** The status read of a device answers the same whenever it is asked. *)
Variable answer : string -> outcome dict.
Hypothesis answer_fixed :
  forall (k : string) (s : S), (api_get_device_status env k s).1 = answer k.

Lemma update_loop_fixed_answers (devs : list dict) :
  forall (acc : gmap string dict) (self : coordinator S),
  NoDup (omap device_key devs) ->
  exists acc' s',
    update_loop env devs acc self
      = (Return acc', {| api_state := s'; devices := devices self |})
    /\ (forall device k, device ∈ devs -> device_key device = Some k ->
        acc' !! k = Some (stored_record self device k (answer k)))
    /\ (forall k, k ∉ listed_ids devs -> acc' !! k = acc !! k).
Proof.
  induction devs as [|device rest IH]; intros acc self Hnodup.
  - exists acc, (api_state self). split; [by destruct self|].
    split; [|done]. intros device k Hin. by apply elem_of_nil in Hin.
  - change (omap device_key (device :: rest))
      with (match device_key device with
            | Some k => k :: omap device_key rest
            | None => omap device_key rest
            end) in Hnodup.
    rewrite listed_ids_cons.
    destruct (device_key device) as [k|] eqn:Hkey.
    + apply NoDup_cons in Hnodup as [Hfresh Hnodup].
      rewrite (update_loop_keyed device rest k acc self Hkey).
      rewrite answer_fixed.
      destruct (IH (<[k := stored_record self device k (answer k)]> acc)
                   {| api_state := (api_get_device_status env k (api_state self)).2;
                      devices := devices self |} Hnodup)
        as (acc' & s' & Hrun & Hlisted & Hother).
      cbn [devices] in Hrun.
      exists acc', s'. split; [exact Hrun|]. split.
      * intros device' k' Hin Hkey'. apply elem_of_cons in Hin as [-> | Hin].
        -- rewrite Hkey in Hkey'. injection Hkey' as <-.
           rewrite Hother; [by rewrite lookup_insert_eq|].
           unfold listed_ids. by rewrite elem_of_list_to_set.
        -- by apply (Hlisted device' k' Hin).
      * intros k' Hk'. rewrite Hother by set_solver.
        rewrite lookup_insert_ne; [done | set_solver].
    + rewrite (update_loop_skipped device rest acc self Hkey).
      destruct (IH acc self Hnodup) as (acc' & s' & Hrun & Hlisted & Hother).
      exists acc', s'. split; [exact Hrun|]. split; [|exact Hother].
      intros device' k' Hin Hkey'. apply elem_of_cons in Hin as [-> | Hin].
      * congruence.
      * by apply (Hlisted device' k' Hin).
Qed.

(** X1. A refresh over any number of devices listed under distinct ids that
    are strings (or falsy), whose status reads answer the same whenever
    asked: every listed device with a non-empty id ends up in the registry, as the listed record updated with its
    status when the read succeeded, as the record the registry held before
    when the read failed and the device was known, and as the bare listed
    record when the read failed and the device is new; and nothing else is in
    the registry. *)
Theorem refresh_merges_every_listed_device
    (self : coordinator S) (devs : list dict) (s1 : S) :
  api_get_devices env (api_state self) = (Return devs, s1) ->
  ids_are_str_or_falsy devs ->
  NoDup (omap device_key devs) ->
  let after := _async_update_data env self in
  is_return (after.1) = true
  /\ (forall device k, device ∈ devs -> device_key device = Some k ->
      devices (after.2) !! k = Some (stored_record self device k (answer k)))
  /\ (forall k, k ∉ listed_ids devs -> devices (after.2) !! k = None).
Proof.
  intros Hlist _ Hnodup after. subst after.
  destruct (refresh_listing_ok env self devs s1 Hlist) as (updated & s2 & Hloop & Hrun).
  rewrite Hrun. cbn [fst snd devices is_return]. split; [reflexivity|].
  destruct (update_loop_fixed_answers devs ∅
              {| api_state := s1; devices := devices self |} Hnodup)
    as (acc' & s' & Hloop' & Hlisted & Hother).
  cbn [devices] in Hloop', Hlisted. rewrite Hloop in Hloop'. injection Hloop' as -> _.
  split; [exact Hlisted|].
  intros k Hk. by rewrite Hother.
Qed.

End FixedAnswers.

(** X2. A refresh during which every status read fails, over a listing of
    devices that are all known already, with ids that are strings (or
    falsy): the refresh still succeeds, and the
    registry afterwards holds, for each listed id, exactly the record it held
    before, and nothing for any other id. *)
Theorem refresh_with_no_status_keeps_known_records
    (self : coordinator S) (devs : list dict) (s1 : S) :
  api_get_devices env (api_state self) = (Return devs, s1) ->
  ids_are_str_or_falsy devs ->
  (forall (k : string) (s : S), is_return (api_get_device_status env k s).1 = false) ->
  (forall k, k ∈ listed_ids devs -> is_Some (devices self !! k)) ->
  let after := _async_update_data env self in
  is_return (after.1) = true
  /\ forall k, devices (after.2) !! k
               = if decide (k ∈ listed_ids devs) then devices self !! k else None.
Proof.
  intros Hlist _ Hfail Hknown after. subst after.
  destruct (refresh_listing_ok env self devs s1 Hlist) as (updated & s2 & Hloop & Hrun).
  rewrite Hrun. cbn [fst snd devices is_return]. split; [reflexivity|].
  assert (Hgen : forall (devs : list dict) (acc : gmap string dict) (st : coordinator S),
             devices st = devices self ->
             (forall k, k ∈ listed_ids devs -> is_Some (devices self !! k)) ->
             exists acc' s',
               update_loop env devs acc st
                 = (Return acc', {| api_state := s'; devices := devices self |})
               /\ forall k, acc' !! k
                            = if decide (k ∈ listed_ids devs) then devices self !! k
                              else acc !! k).
  { clear devs s1 Hlist Hknown updated s2 Hloop Hrun.
    induction devs as [|device rest IH]; intros acc st Hst Hknown.
    - exists acc, (api_state st). split; [destruct st; cbn in *; by subst|].
      intros k. by rewrite decide_False by set_solver.
    - rewrite listed_ids_cons in Hknown |- *.
      destruct (device_key device) as [k|] eqn:Hkey.
      + rewrite (update_loop_keyed device rest k acc st Hkey).
        pose proof (Hfail k (api_state st)) as Hread.
        destruct (api_get_device_status env k (api_state st)) as [[status|ex] s3];
          [discriminate|]. cbn [fst snd stored_record].
        destruct (Hknown k) as [previous Hprevious]; [set_solver|].
        rewrite Hst, Hprevious. cbn [default].
        destruct (IH (<[k := id previous]> acc) {| api_state := s3; devices := devices self |})
          as (acc' & s' & Hrun & Hacc'); [reflexivity | set_solver |].
        exists acc', s'. split; [exact Hrun|].
        intros k'. rewrite Hacc'.
        destruct (decide (k' ∈ listed_ids rest)) as [Hin|Hout].
        * by rewrite decide_True by set_solver.
        * destruct (decide (k' = k)) as [->|Hne].
          -- rewrite decide_True by set_solver. by rewrite lookup_insert_eq.
          -- rewrite decide_False by set_solver. by rewrite lookup_insert_ne.
      + rewrite (update_loop_skipped device rest acc st Hkey). by apply IH. }
  destruct (Hgen devs ∅ {| api_state := s1; devices := devices self |} eq_refl Hknown)
    as (acc' & s' & Hloop' & Hacc').
  rewrite Hloop in Hloop'. injection Hloop' as -> _.
  intros k. rewrite Hacc'. by destruct (decide (k ∈ listed_ids devs)).
Qed.

(** X3. The registry reads list what the registry holds: [get_devices]
    answers one record per registered id, and [get_devices_by_type] answers
    exactly the registered records whose ["type"] is the string asked for
    (a record without a type is never among them). *)
Theorem registry_listing_reads (self : coordinator S) (device_type : string) :
  (exists all, get_devices self = (Return all, self)
     /\ length all = size (devices self)
     /\ forall device, device ∈ all <-> exists k, devices self !! k = Some device)
  /\ (exists typed, get_devices_by_type device_type self = (Return typed, self)
        /\ forall device,
             device ∈ typed
             <-> (exists k, devices self !! k = Some device)
                 /\ device !! "type" = Some (VStr device_type)).
Proof.
  assert (Hall : forall device : dict,
            device ∈ (map_to_list (devices self)).*2
            <-> exists k, devices self !! k = Some device).
  { intros device. rewrite list_elem_of_fmap. split.
    - intros ([k d] & -> & Hin). exists k. by apply elem_of_map_to_list in Hin.
    - intros (k & Hk). exists (k, device). split; [done|]. by apply elem_of_map_to_list. }
  split.
  - eexists. split; [reflexivity|]. split; [|exact Hall].
    by rewrite length_fmap, length_map_to_list.
  - eexists. split; [reflexivity|].
    intros device. rewrite list_elem_of_filter, Hall.
    assert (Htype : eq_str (dict_get device "type") device_type = true
                    <-> device !! "type" = Some (VStr device_type)).
    { unfold dict_get, eq_str.
      destruct (device !! "type") as [[|b|z|f|t|l|d]|]; cbn [default]; unfold id;
        try (split; [discriminate | intros [= ]]).
      split.
      - intros Heq. apply String.eqb_eq in Heq. by subst.
      - intros [= ->]. apply String.eqb_refl. }
    rewrite Htype. tauto.
Qed.

(** A command the transport refuses is followed by no refresh. *)
Lemma send_command_after_failure (refresh : M (coordinator S) unit)
    (self : coordinator S) (device_id command : string) (kwargs : dict)
    (ex : exn) (s1 : S) :
  api_send_command env device_id command kwargs (api_state self) = (Raise ex, s1) ->
  send_command env refresh device_id command kwargs self
  = (Raise ex, {| api_state := s1; devices := devices self |}).
Proof.
  intros Hsend. unfold send_command, try_except, bind, call, raise.
  by rewrite Hsend.
Qed.

End CoordinatorLoopFacts.

(** Three devices: the lamp answers, the fan (known) and the pump (new) do
    not. *)
Lemma three_devices_scenario :
  let after := Coordinator._async_update_data env_three_listed two_known in
  Coordinator.devices (after.2) !! "A" = Some (lamp_status ∪ lamp_listed)
  /\ Coordinator.devices (after.2) !! "B" = Some fan_before
  /\ Coordinator.devices (after.2) !! "C" = Some pump_listed.
Proof.
  destruct (refresh_merges_every_listed_device env_three_listed fan_silent
              (fun k s => eq_refl) two_known [lamp_listed; fan_listed; pump_listed] 1)
    as (_ & Hlisted & _).
  - reflexivity.
  - unfold ids_are_str_or_falsy. by repeat constructor.
  - change (omap device_key [lamp_listed; fan_listed; pump_listed]) with ["A"; "B"; "C"].
    apply (bool_decide_unpack (NoDup ["A"; "B"; "C"])); vm_compute; exact I.
  - cbv zeta. split; [|split].
    + apply (Hlisted lamp_listed "A");
        [repeat first [apply list_elem_of_here | apply list_elem_of_further] | reflexivity].
    + apply (Hlisted fan_listed "B");
        [repeat first [apply list_elem_of_here | apply list_elem_of_further] | reflexivity].
    + apply (Hlisted pump_listed "C");
        [repeat first [apply list_elem_of_here | apply list_elem_of_further] | reflexivity].
Defined.

(** Neither device answers: both keep their records. *)
Lemma silent_devices_scenario :
  let after := Coordinator._async_update_data env_all_silent two_known in
  is_return (after.1) = true
  /\ Coordinator.devices (after.2) !! "A" = Some lamp_before
  /\ Coordinator.devices (after.2) !! "B" = Some fan_before
  /\ Coordinator.devices (after.2) !! "C" = None.
Proof.
  destruct (refresh_with_no_status_keeps_known_records env_all_silent two_known
              [lamp_listed; fan_listed] 1) as (Hok & Hkept).
  - reflexivity.
  - unfold ids_are_str_or_falsy. by repeat constructor.
  - reflexivity.
  - intros k Hk. unfold listed_ids in Hk.
    change (omap device_key [lamp_listed; fan_listed]) with ["A"; "B"] in Hk.
    apply elem_of_list_to_set in Hk.
    apply elem_of_cons in Hk as [-> | Hk]; [exists lamp_before; reflexivity|].
    apply elem_of_cons in Hk as [-> | Hk]; [exists fan_before; reflexivity|].
    by apply elem_of_nil in Hk.
  - cbv zeta. split; [exact Hok|].
    split; [etransitivity; [apply (Hkept "A") | vm_compute; reflexivity]|].
    split; [etransitivity; [apply (Hkept "B") | vm_compute; reflexivity]|].
    etransitivity; [apply (Hkept "C") | vm_compute; reflexivity].
Defined.

(** ** The transport facade: commands, credentials, connection tests *)

Section ApiMoreFacts.

Variable w : Api.World.

Import Api.

Lemma py_bytes_in_range (items : list val) (bs : list Z) :
  py_bytes items = Return bs ->
  length bs = length items /\ Forall (fun b => (0 <= b < 256)%Z) bs.
Proof.
  revert bs. induction items as [|item rest IH]; intros bs Hbytes.
  - injection Hbytes as <-. by split.
  - cbn [py_bytes] in Hbytes.
    destruct item as [|b|z|f|s|l|d]; try discriminate.
    + destruct (py_bytes rest) as [bs'|ex]; [|discriminate].
      injection Hbytes as <-. destruct (IH bs' eq_refl) as [Hlen Hall].
      split; [cbn; by rewrite Hlen|]. constructor; [destruct b; lia | exact Hall].
    + destruct ((0 <=? z)%Z && (z <? 256)%Z) eqn:Hrange; [|discriminate].
      destruct (py_bytes rest) as [bs'|ex]; [|discriminate].
      injection Hbytes as <-. destruct (IH bs' eq_refl) as [Hlen Hall].
      split; [cbn; by rewrite Hlen|]. constructor; [lia | exact Hall].
Qed.

(** X4. Whatever the command and its arguments, [_build_ble_command] either
    yields a payload of exactly two bytes, each within 0..255, whose first
    byte is 1 for the power commands and 2 for set_brightness, or raises a
    [ValueError] or a [TypeError]; and set_brightness called without a
    brightness encodes 100. *)
Theorem ble_payload_shape (command : string) (kwargs : dict) :
  match _build_ble_command command kwargs with
  | Return payload =>
      length payload = 2
      /\ Forall (fun b => (0 <= b < 256)%Z) payload
      /\ payload !! 0 = Some (if String.eqb command "set_brightness" then 2%Z else 1%Z)
  | Raise ex => exn_class_of ex = ValueError \/ exn_class_of ex = TypeError
  end
  /\ (kwargs !! "brightness" = None ->
      _build_ble_command "set_brightness" kwargs = Return [2%Z; 100%Z]).
Proof.
  split.
  - unfold _build_ble_command.
    destruct (String.eqb command "power_on") eqn:Hon.
    { apply String.eqb_eq in Hon as ->. repeat split. repeat constructor; lia. }
    destruct (String.eqb command "power_off") eqn:Hoff.
    { apply String.eqb_eq in Hoff as ->. repeat split. repeat constructor; lia. }
    destruct (String.eqb command "set_brightness") eqn:Hset; [|by left].
    destruct (py_bytes [VInt 2; dict_get_or kwargs "brightness" (VInt 100)])
      as [payload|ex] eqn:Hbytes.
    + destruct (py_bytes_in_range _ _ Hbytes) as [Hlen Hall].
      split; [exact Hlen|]. split; [exact Hall|].
      cbn [py_bytes] in Hbytes. change ((0 <=? 2)%Z && (2 <? 256)%Z) with true in Hbytes.
      cbv iota in Hbytes.
      destruct (match dict_get_or kwargs "brightness" (VInt 100) with
                | VBool _ | VInt _ => _ | _ => _ end) as [bs|ex]; [|discriminate].
      by injection Hbytes as <-.
    + cbn [py_bytes] in Hbytes. change ((0 <=? 2)%Z && (2 <? 256)%Z) with true in Hbytes.
      cbv iota in Hbytes.
      destruct (dict_get_or kwargs "brightness" (VInt 100)) as [|b|z|f|s|l|d];
        try (injection Hbytes as <-; by right); try discriminate.
      destruct ((0 <=? z)%Z && (z <? 256)%Z); [discriminate|].
      injection Hbytes as <-. by left.
  - intros Hmissing. unfold _build_ble_command, dict_get_or. by rewrite Hmissing.
Qed.

(** X5. A known command on a link that is up: the payload is written to the
    characteristic exactly once and nothing else is exchanged; the call
    answers the fixed success record when the write returns and re-raises
    the write's error when it does not. *)
Theorem ble_command_written_once
    (self : api) (device_id command : string) (kwargs : dict) (payload : list Z) :
  needs_ble_connection w self = false ->
  _build_ble_command command kwargs = Return payload ->
  _send_command_ble w device_id command kwargs self
  = (match ble_write w (trace self) BLE_CHARACTERISTIC_UUID payload with
     | Return _ => Return (VDict (ble_command_answer command))
     | Raise ex => Raise ex
     end,
     with_trace (trace self ++ [EvBleWrite BLE_CHARACTERISTIC_UUID payload]) self).
Proof.
  intros Hup Hbuild. unfold _send_command_ble, bind at 1.
  rewrite (connect_ble_if_needed_not_needed w self Hup).
  unfold try_except, bind, lift, io_ble_write, raise, ret. rewrite Hbuild.
  by destruct (ble_write w (trace self) BLE_CHARACTERISTIC_UUID payload) as [[]|ex].
Qed.

Lemma connect_ble_without_address (self : api) :
  lacks_ble_mac self = true ->
  _connect_ble w self = (Raise (Exn ValueError "BLE MAC address not provided"), self).
Proof.
  unfold lacks_ble_mac, _connect_ble, bind, gets, raise.
  destruct (ble_mac self) as [addr|]; [|reflexivity].
  by intros ->.
Qed.

(** X6. A local client without a BLE address whose link is not up: listing,
    command and status read all raise the same [ValueError] without any
    exchange and without changing the client, and the connection test
    answers False, likewise without any exchange. *)
Theorem ble_operations_without_address
    (self : api) (device_id command : string) (kwargs : dict) :
  lacks_ble_mac self = true ->
  needs_ble_connection w self = true ->
  let refused := Exn ValueError "BLE MAC address not provided" in
  _get_devices_ble w self = (Raise refused, self)
  /\ _send_command_ble w device_id command kwargs self = (Raise refused, self)
  /\ _get_device_status_ble w device_id self = (Raise refused, self)
  /\ _test_ble_connection w self = (Return false, self).
Proof.
  intros Hnomac Hdown refused. subst refused.
  assert (Hconnect : connect_ble_if_needed w self
                     = (Raise (Exn ValueError "BLE MAC address not provided"), self)).
  { unfold connect_ble_if_needed, bind, gets. rewrite Hdown.
    exact (connect_ble_without_address self Hnomac). }
  repeat split.
  - unfold _get_devices_ble, bind at 1. by rewrite Hconnect.
  - unfold _send_command_ble, bind at 1. by rewrite Hconnect.
  - unfold _get_device_status_ble, bind at 1. by rewrite Hconnect.
  - unfold _test_ble_connection, bind at 1, gets. by rewrite Hnomac.
Qed.

(** X7. A cloud client without a session: listing, command and status read
    all raise [RuntimeError] without any exchange and without changing the
    client, whether or not a token is cached. *)
Theorem cloud_operations_without_session
    (self : api) (device_id command : string) (kwargs : dict) :
  session self = false ->
  let refused := Exn RuntimeError "Session not initialized" in
  _get_devices_cloud w self = (Raise refused, self)
  /\ _send_command_cloud w device_id command kwargs self = (Raise refused, self)
  /\ _get_device_status_cloud w device_id self = (Raise refused, self).
Proof.
  intros Hnosession refused. subst refused.
  assert (Hauth : authenticate_if_needed w self
                  = (Raise (Exn RuntimeError "Session not initialized"), self)).
  { unfold authenticate_if_needed, needs_authentication, bind, gets.
    rewrite Hnosession. cbn [negb orb].
    unfold _authenticate, bind, gets, raise. by rewrite Hnosession. }
  repeat split.
  - unfold _get_devices_cloud, bind at 1. by rewrite Hauth.
  - unfold _send_command_cloud, bind at 1. by rewrite Hauth.
  - unfold _get_device_status_cloud, bind at 1. by rewrite Hauth.
Qed.

(** The login, step by step. *)
Lemma authenticate_unfold (self : api) :
  session self = true ->
  let logged := with_trace (trace self ++ [EvHttp (login_request self)]) self in
  _authenticate w self
  = match http w (trace self) (login_request self) with
    | Raise ex => (Raise ex, logged)
    | Return response =>
        if (status response =? 200)%Z then
          match json_body response with
          | Raise ex => (Raise ex, logged)
          | Return data =>
              match py_get data "token" VNone with
              | Raise ex => (Raise ex, logged)
              | Return token =>
                  (if truthy token then Return tt
                   else Raise (Exn ValueError "No auth token in response"),
                   with_auth_token token logged)
              end
          end
        else
          (Raise (Exn ValueError ("Authentication failed: " +:+ pretty (status response))),
           logged)
    end.
Proof.
  intros Hsession. cbv zeta. unfold login_request.
  unfold _authenticate, try_except, bind, gets, io_http, lift, modify, raise, ret.
  rewrite Hsession. cbn [negb].
  destruct (http w (trace self) _) as [response|ex]; [|reflexivity].
  destruct (status response =? 200)%Z; [|reflexivity].
  destruct (json_body response) as [data|ex]; [|reflexivity].
  destruct (py_get data "token" VNone) as [token|ex]; [|reflexivity].
  by destruct (truthy token).
Qed.

(** What a login leaves behind. *)
Lemma authenticate_facts (self : api) :
  session self = true ->
  let after := _authenticate w self in
  trace (after.2) = trace self ++ [EvHttp (login_request self)]
  /\ session (after.2) = true
  /\ (is_return (after.1) = true -> truthy (auth_token (after.2)) = true)
  /\ (is_return (after.1) = false ->
      auth_token (after.2) = auth_token self \/ truthy (auth_token (after.2)) = false).
Proof.
  intros Hsession after. subst after.
  rewrite (authenticate_unfold self Hsession). cbv zeta.
  destruct (http w (trace self) (login_request self)) as [response|ex];
    [|by repeat split; auto].
  destruct (status response =? 200)%Z; [|by repeat split; auto].
  destruct (json_body response) as [data|ex]; [|by repeat split; auto].
  destruct (py_get data "token" VNone) as [token|ex]; [|by repeat split; auto].
  destruct (truthy token) eqn:Htoken; cbn [fst snd is_return auth_token with_auth_token
    trace with_trace session]; repeat split; auto; discriminate.
Qed.

(** X8. With the session open, [_authenticate] performs exactly one exchange,
    the login request. It returns only with a truthy token cached. When it
    raises, the token cached before is either still in place or has been
    replaced by the falsy token of a 200 response. *)
Theorem authenticate_outcome (self : api) :
  session self = true ->
  let after := _authenticate w self in
  trace (after.2) = trace self ++ [EvHttp (login_request self)]
  /\ session (after.2) = true
  /\ (is_return (after.1) = true -> truthy (auth_token (after.2)) = true)
  /\ (is_return (after.1) = false ->
      auth_token (after.2) = auth_token self \/ truthy (auth_token (after.2)) = false).
Proof. exact (authenticate_facts self). Qed.

Lemma authenticate_if_needed_ready (self self1 : api) :
  authenticate_if_needed w self = (Return tt, self1) ->
  session self1 = true /\ truthy (auth_token self1) = true.
Proof.
  unfold authenticate_if_needed, bind, gets.
  destruct (needs_authentication self) eqn:Hneeded.
  - intros Hrun. destruct (session self) eqn:Hsession.
    + destruct (authenticate_facts self Hsession) as (_ & Hsess & Hok & _).
      cbv zeta in Hsess, Hok. rewrite Hrun in Hsess, Hok. cbn [fst snd is_return] in *.
      split; [exact Hsess | by apply Hok].
    + unfold _authenticate, bind, gets, raise in Hrun. rewrite Hsession in Hrun.
      discriminate.
  - intros [= <-]. unfold needs_authentication in Hneeded.
    apply orb_false_elim in Hneeded as [Hsess Htoken].
    split; [by destruct (session self) | by destruct (truthy (auth_token self))].
Qed.

(** X9. Every cloud operation first makes sure of a session and a truthy
    token, and then sends exactly one request, carrying that token: when the
    lazy authentication raises, the operation raises the same error and sends
    nothing more; otherwise its exchanges are those of the authentication
    followed by its one request. *)
Theorem cloud_operation_exchanges
    (self : api) (device_id command : string) (kwargs : dict) :
  match authenticate_if_needed w self with
  | (Raise ex, self1) =>
      _get_devices_cloud w self = (Raise ex, self1)
      /\ _send_command_cloud w device_id command kwargs self = (Raise ex, self1)
      /\ _get_device_status_cloud w device_id self = (Raise ex, self1)
  | (Return _, self1) =>
      session self1 = true
      /\ truthy (auth_token self1) = true
      /\ trace (_get_devices_cloud w self).2
         = trace self1 ++ [EvHttp (devices_request (auth_token self1))]
      /\ trace (_send_command_cloud w device_id command kwargs self).2
         = trace self1 ++ [EvHttp (control_request device_id command kwargs (auth_token self1))]
      /\ trace (_get_device_status_cloud w device_id self).2
         = trace self1 ++ [EvHttp (status_request device_id (auth_token self1))]
  end.
Proof.
  destruct (authenticate_if_needed w self) as [[[]|ex] self1] eqn:Hauth.
  - destruct (authenticate_if_needed_ready self self1 Hauth) as [Hsession Htoken].
    split; [exact Hsession|]. split; [exact Htoken|].
    unfold devices_request, control_request, status_request.
    split; [|split].
    + unfold _get_devices_cloud, bind at 1. rewrite Hauth.
      unfold bind at 1, gets, try_except, bind, io_http, lift, raise.
      destruct (http w (trace self1) _) as [response|ex]; [|reflexivity].
      destruct (status response =? 200)%Z; [|reflexivity].
      destruct (json_body response) as [data|ex]; [|reflexivity].
      by destruct (py_get data "devices" (VList [])).
    + unfold _send_command_cloud, bind at 1. rewrite Hauth.
      unfold bind at 1, gets, try_except, bind, io_http, lift, raise.
      destruct (http w (trace self1) _) as [response|ex]; [|reflexivity].
      destruct (status response =? 200)%Z; [|reflexivity].
      by destruct (json_body response).
    + unfold _get_device_status_cloud, bind at 1. rewrite Hauth.
      unfold bind at 1, gets, try_except, bind, io_http, lift, raise.
      destruct (http w (trace self1) _) as [response|ex]; [|reflexivity].
      destruct (status response =? 200)%Z; [|reflexivity].
      by destruct (json_body response).
  - repeat split.
    + unfold _get_devices_cloud, bind at 1. by rewrite Hauth.
    + unfold _send_command_cloud, bind at 1. by rewrite Hauth.
    + unfold _get_device_status_cloud, bind at 1. by rewrite Hauth.
Qed.

Lemma test_connection_dispatch (self : api) :
  test_connection w self
  = if use_cloud self then _test_cloud_connection w self else _test_ble_connection w self.
Proof.
  unfold test_connection, try_except, bind, gets, raise.
  destruct (use_cloud self).
  - by destruct (_test_cloud_connection w self) as [[b|ex] self1].
  - by destruct (_test_ble_connection w self) as [[b|ex] self1].
Qed.

Lemma test_ble_connection_unfold (self : api) :
  _test_ble_connection w self
  = match ble_mac self with
    | None => (Return false, self)
    | Some addr =>
        if String.eqb addr "" then (Return false, self)
        else
          (match ble_connect w (trace self) addr with
           | Return _ => Return true
           | Raise _ => Return false
           end,
           with_trace (trace self ++ [EvBleConnect addr]) (with_ble_client (Some addr) self))
    end.
Proof.
  unfold _test_ble_connection, bind at 1, gets at 1, lacks_ble_mac.
  destruct (ble_mac self) as [addr|] eqn:Hmac; [|reflexivity].
  destruct (String.eqb addr "") eqn:Hempty; [reflexivity|].
  unfold try_except, bind at 1, _connect_ble, bind at 1, gets at 1.
  rewrite Hmac, Hempty.
  unfold try_except, bind, modify, io_ble_connect, raise, ret.
  cbn [trace with_ble_client].
  by destruct (ble_connect w (trace self) addr) as [[]|ex].
Qed.

(** X10. [test_connection] never raises: it answers True or False. On the
    cloud transport it leaves a session open whatever the answer, and True
    means a truthy token is cached, so the next operation needs no login. On
    the local transport True means one connection attempt to the configured
    address was made and succeeded. *)
Theorem test_connection_answers (self : api) :
  let after := test_connection w self in
  (after.1 = Return true \/ after.1 = Return false)
  /\ (use_cloud self = true ->
      session (after.2) = true
      /\ (after.1 = Return true -> needs_authentication (after.2) = false))
  /\ (use_cloud self = false ->
      after.1 = Return true ->
      exists addr,
        ble_mac self = Some addr
        /\ ble_connect w (trace self) addr = Return tt
        /\ trace (after.2) = trace self ++ [EvBleConnect addr]).
Proof.
  cbv zeta. rewrite test_connection_dispatch.
  destruct (use_cloud self) eqn:Hcloud.
  - assert (Hopen : exists opened,
              session opened = true
              /\ _test_cloud_connection w self
                 = match _authenticate w opened with
                   | (Return _, self1) => (Return true, self1)
                   | (Raise _, self1) => (Return false, self1)
                   end).
    { unfold _test_cloud_connection, bind at 1, gets at 1.
      destruct (session self) eqn:Hsession; cbn [negb].
      - exists self. split; [exact Hsession|].
        unfold bind at 1, ret at 1, try_except, bind, ret.
        by destruct (_authenticate w self) as [[[]|ex] self1].
      - exists (with_session true self). split; [reflexivity|].
        unfold bind at 1, modify at 1, try_except, bind, ret.
        by destruct (_authenticate w (with_session true self)) as [[[]|ex] self1]. }
    destruct Hopen as (opened & Hsession & ->).
    destruct (authenticate_facts opened Hsession) as (_ & Hsess & Hok & _).
    cbv zeta in Hsess, Hok.
    destruct (_authenticate w opened) as [[[]|ex] self1]; cbn [fst snd is_return] in *.
    + split; [by left|]. split; [|discriminate].
      intros _. split; [exact Hsess|]. intros _.
      unfold needs_authentication. by rewrite Hsess, Hok.
    + split; [by right|]. split; [|discriminate].
      intros _. split; [exact Hsess|]. discriminate.
  - rewrite test_ble_connection_unfold.
    destruct (ble_mac self) as [addr|] eqn:Hmac;
      [|cbn [fst snd]; split; [by right|]; split; [discriminate|]; discriminate].
    destruct (String.eqb addr "") eqn:Hempty;
      [cbn [fst snd]; split; [by right|]; split; [discriminate|]; discriminate|].
    destruct (ble_connect w (trace self) addr) as [[]|ex] eqn:Hconnect;
      cbn [fst snd trace with_trace].
    + split; [by left|]. split; [discriminate|]. intros _ _. by exists addr.
    + split; [by right|]. split; [discriminate|]. discriminate.
Qed.

Lemma ble_device_record_key (self : api) :
  device_key (ble_device_record self)
  = match ble_mac self with
    | Some addr => if String.eqb addr "" then None else Some addr
    | None => None
    end.
Proof.
  unfold device_key, dict_get, ble_device_record.
  rewrite lookup_insert_eq. cbn [default]. unfold id.
  destruct (ble_mac self) as [addr|]; [|reflexivity].
  cbn [from_option truthy]. by destruct (String.eqb addr "").
Qed.

Lemma get_devices_ble_unfold (self : api) :
  _get_devices_ble w self
  = match connect_ble_if_needed w self with
    | (Raise ex, self1) => (Raise ex, self1)
    | (Return _, self1) =>
        (match ble_read w (trace self1) BLE_CHARACTERISTIC_UUID with
         | Return _ => Return (VList [VDict (ble_device_record self1)])
         | Raise ex => Raise ex
         end,
         with_trace (trace self1 ++ [EvBleRead BLE_CHARACTERISTIC_UUID]) self1)
    end.
Proof.
  unfold _get_devices_ble, bind at 1.
  destruct (connect_ble_if_needed w self) as [[[]|ex] self1]; [|reflexivity].
  unfold try_except, bind, io_ble_read, gets, ret, raise.
  by destruct (ble_read w (trace self1) BLE_CHARACTERISTIC_UUID).
Qed.

(** X11. A listing on the local transport performs, after the connection
    attempt of a client whose link is not up, exactly one read of the
    characteristic, and answers one record that does not depend on the bytes
    read. With a non-empty address configured, the record's id is that
    address, so the coordinator stores it under the address, and its type is
    light. *)
Theorem ble_listing_answers_the_configured_device (self : api) :
  let after := _get_devices_ble w self in
  match after.1 with
  | Return listed =>
      listed = VList [VDict (ble_device_record self)]
      /\ trace (after.2)
         = trace self ++ connection_attempt w self ++ [EvBleRead BLE_CHARACTERISTIC_UUID]
      /\ ble_device_record (after.2) = ble_device_record self
  | Raise _ => True
  end
  /\ forall addr, ble_mac self = Some addr -> addr <> "" ->
       device_key (ble_device_record self) = Some addr
       /\ ble_device_record self !! "type" = Some (VStr "light").
Proof.
  cbv zeta. split.
  - pose proof (connect_ble_if_needed_trace w self) as Htrace.
    assert (Hmac : ble_mac (connect_ble_if_needed w self).2 = ble_mac self).
    { unfold connect_ble_if_needed, bind, gets.
      destruct (needs_ble_connection w self); [|reflexivity].
      unfold _connect_ble, bind, gets.
      destruct (ble_mac self) as [addr|] eqn:Hm; [|by rewrite <- Hm].
      destruct (String.eqb addr ""); [by rewrite <- Hm|].
      unfold try_except, bind, modify, io_ble_connect, raise.
      rewrite <- Hm. by destruct (ble_connect w _ addr) as [[]|ex]. }
    rewrite get_devices_ble_unfold.
    destruct (connect_ble_if_needed w self) as [[[]|ex] self1]; cbn [fst snd] in *; [|done].
    destruct (ble_read w (trace self1) BLE_CHARACTERISTIC_UUID) as [info|ex];
      cbn [fst snd trace with_trace]; [|done].
    assert (Hrecord : ble_device_record self1 = ble_device_record self).
    { unfold ble_device_record. by rewrite Hmac. }
    split; [by rewrite Hrecord|]. split; [by rewrite Htrace, <- app_assoc|].
    exact Hrecord.
  - intros addr Hmac Hne. rewrite ble_device_record_key, Hmac.
    apply String.eqb_neq in Hne. rewrite Hne. split; [reflexivity|].
    unfold ble_device_record.
    rewrite lookup_insert_ne by discriminate.
    rewrite lookup_insert_ne by discriminate.
    by rewrite lookup_insert_eq.
Qed.

End ApiMoreFacts.

(** ** The coordinator over the local transport *)

Section LocalTransportFacts.

Variable w : Api.World.
Variable clock : Api.api -> float.

Lemma status_ble_link_up (self : Api.api) (device_id : string) :
  Api.needs_ble_connection w self = false ->
  Api._get_device_status_ble w device_id self
  = (match Api.ble_read w (Api.trace self) Api.BLE_CHARACTERISTIC_UUID with
     | Return frame => Api.parse_status frame
     | Raise ex => Raise ex
     end,
     Api.with_trace (Api.trace self ++ [Api.EvBleRead Api.BLE_CHARACTERISTIC_UUID]) self).
Proof.
  intros Hup. unfold Api._get_device_status_ble, bind at 1.
  rewrite (connect_ble_if_needed_not_needed w self Hup).
  unfold try_except, bind, Api.io_ble_read, Api.lift, raise.
  destruct (Api.ble_read w (Api.trace self) Api.BLE_CHARACTERISTIC_UUID) as [frame|ex];
    [|reflexivity].
  by destruct (Api.parse_status frame).
Qed.

(** X12. One poll of a local client whose link is up and stays up, with an
    address configured: the characteristic is read twice (once for the
    listing, once for the status) and nothing else is exchanged; the poll
    succeeds; and the registry then holds exactly one device, under the
    configured address: the listed record updated with the decoded status
    when the status frame decodes, and otherwise the record held before (or
    the bare listed record for a device not known before). *)
Theorem local_poll_registers_the_configured_device
    (self : Coordinator.coordinator Api.api) (mac : string) (info frame : list Z) :
  let api0 := Coordinator.api_state self in
  let read := Api.EvBleRead Api.BLE_CHARACTERISTIC_UUID in
  let api1 := Api.with_trace (Api.trace api0 ++ [read]) api0 in
  Api.ble_mac api0 = Some mac ->
  mac <> "" ->
  Api.needs_ble_connection w api0 = false ->
  Api.ble_read w (Api.trace api0) Api.BLE_CHARACTERISTIC_UUID = Return info ->
  Api.needs_ble_connection w api1 = false ->
  Api.ble_read w (Api.trace api1) Api.BLE_CHARACTERISTIC_UUID = Return frame ->
  let after := Coordinator._async_update_data (LocalTransport.env w clock) self in
  is_return (after.1) = true
  /\ Api.trace (Coordinator.api_state (after.2)) = Api.trace api0 ++ [read; read]
  /\ Coordinator.devices (after.2)
     = {[ mac := stored_record self (Api.ble_device_record api0) mac
                   (Api.parse_status frame) ]}.
Proof.
  intros api0 read api1 Hmac Hne Hup0 Hinfo Hup1 Hframe after.
  subst after api1 read api0.
  assert (Hlist : Coordinator.api_get_devices (LocalTransport.env w clock)
                    (Coordinator.api_state self)
                  = (Return [Api.ble_device_record (Coordinator.api_state self)],
                     Api.with_trace
                       (Api.trace (Coordinator.api_state self)
                        ++ [Api.EvBleRead Api.BLE_CHARACTERISTIC_UUID])
                       (Coordinator.api_state self))).
  { cbn [Coordinator.api_get_devices LocalTransport.env].
    rewrite get_devices_ble_unfold, (connect_ble_if_needed_not_needed w _ Hup0).
    rewrite Hinfo. reflexivity. }
  assert (Hkey : device_key (Api.ble_device_record (Coordinator.api_state self)) = Some mac).
  { rewrite ble_device_record_key, Hmac. apply String.eqb_neq in Hne. by rewrite Hne. }
  destruct (refresh_listing_ok (LocalTransport.env w clock) self _ _ Hlist)
    as (updated & s2 & Hloop & Hrun).
  rewrite (update_loop_keyed (LocalTransport.env w clock) _ [] mac ∅ _ Hkey) in Hloop.
  cbn [Coordinator.api_state Coordinator.devices Coordinator.api_get_device_status
       LocalTransport.env] in Hloop.
  rewrite (status_ble_link_up _ mac Hup1), Hframe in Hloop.
  cbn [fst snd Coordinator.update_loop] in Hloop.
  unfold ret in Hloop. injection Hloop as <- <-.
  rewrite Hrun. cbn [fst snd is_return Coordinator.api_state Coordinator.devices].
  split; [reflexivity|]. split.
  - cbn [Api.trace Api.with_trace]. by rewrite <- app_assoc.
  - reflexivity.
Qed.

(** An unknown command through the coordinator. *)
Lemma unknown_command_refused_locally
    (refresh : M (Coordinator.coordinator Api.api) unit)
    (self : Coordinator.coordinator Api.api) (device_id command : string) (kwargs : dict) :
  command <> "power_on" -> command <> "power_off" -> command <> "set_brightness" ->
  let api0 := Coordinator.api_state self in
  let after := Coordinator.send_command (LocalTransport.env w clock) refresh
                 device_id command kwargs self in
  is_return (after.1) = false
  /\ Coordinator.devices (after.2) = Coordinator.devices self
  /\ Api.trace (Coordinator.api_state (after.2))
     = Api.trace api0 ++ Api.connection_attempt w api0.
Proof.
  intros Hon Hoff Hset api0 after. subst after api0.
  pose proof (unknown_command_raises command kwargs Hon Hoff Hset) as Hbuild.
  pose proof (connect_ble_if_needed_trace w (Coordinator.api_state self)) as Htrace.
  assert (Hsend : exists ex,
            Coordinator.api_send_command (LocalTransport.env w clock) device_id command
              kwargs (Coordinator.api_state self)
            = (Raise ex, (Api.connect_ble_if_needed w (Coordinator.api_state self)).2)).
  { cbn [Coordinator.api_send_command LocalTransport.env].
    unfold Api._send_command_ble, bind at 1.
    destruct (Api.connect_ble_if_needed w (Coordinator.api_state self))
      as [[[]|ex] api1]; cbn [snd].
    - unfold try_except, bind, Api.lift, raise. rewrite Hbuild. by eexists.
    - by eexists. }
  destruct Hsend as (ex & Hsend).
  rewrite (send_command_after_failure (LocalTransport.env w clock) refresh self
             device_id command kwargs ex _ Hsend).
  cbn [fst snd is_return Coordinator.devices Coordinator.api_state].
  by rewrite Htrace.
Qed.

(** X13. A command through the coordinator on the local transport that the
    BLE codec does not know ("set_color" is one): the call raises, no refresh
    follows, the registry is untouched, and nothing was written to the
    device. *)
Theorem unknown_command_through_the_coordinator
    (refresh : M (Coordinator.coordinator Api.api) unit)
    (self : Coordinator.coordinator Api.api) (device_id command : string) (kwargs : dict) :
  command <> "power_on" -> command <> "power_off" -> command <> "set_brightness" ->
  let api0 := Coordinator.api_state self in
  let after := Coordinator.send_command (LocalTransport.env w clock) refresh
                 device_id command kwargs self in
  is_return (after.1) = false
  /\ Coordinator.devices (after.2) = Coordinator.devices self
  /\ Api.trace (Coordinator.api_state (after.2))
     = Api.trace api0 ++ Api.connection_attempt w api0.
Proof.
  exact (unknown_command_refused_locally refresh self device_id command kwargs).
Qed.

End LocalTransportFacts.

(** Setting the brightness to 40 over a link that is up. *)
Lemma brightness_command_scenario :
  Api._send_command_ble one_byte_link "AA:BB:CC:DD:EE:FF" "set_brightness"
    {[ "brightness" := VInt 40 ]} linked_api
  = (Return (VDict (Api.ble_command_answer "set_brightness")),
     Api.with_trace
       (Api.trace linked_api ++ [Api.EvBleWrite Api.BLE_CHARACTERISTIC_UUID [2%Z; 40%Z]])
       linked_api).
Proof.
  apply (ble_command_written_once one_byte_link linked_api "AA:BB:CC:DD:EE:FF"
           "set_brightness" {[ "brightness" := VInt 40 ]} [2%Z; 40%Z]); reflexivity.
Defined.

(** A local client that was given no address. *)
Lemma addressless_scenario :
  let refused := Exn ValueError "BLE MAC address not provided" in
  Api._get_devices_ble one_byte_link addressless_api = (Raise refused, addressless_api)
  /\ Api._send_command_ble one_byte_link "x" "power_on" ∅ addressless_api
     = (Raise refused, addressless_api)
  /\ Api._get_device_status_ble one_byte_link "x" addressless_api
     = (Raise refused, addressless_api)
  /\ Api._test_ble_connection one_byte_link addressless_api = (Return false, addressless_api).
Proof.
  apply (ble_operations_without_address one_byte_link addressless_api "x" "power_on" ∅);
    reflexivity.
Defined.

(** A cloud client on which the connection was never tested. *)
Lemma sessionless_scenario :
  let refused := Exn RuntimeError "Session not initialized" in
  Api._get_devices_cloud friendly_cloud new_cloud_api = (Raise refused, new_cloud_api)
  /\ Api._send_command_cloud friendly_cloud "dev-1" "power_on" ∅ new_cloud_api
     = (Raise refused, new_cloud_api)
  /\ Api._get_device_status_cloud friendly_cloud "dev-1" new_cloud_api
     = (Raise refused, new_cloud_api).
Proof.
  apply (cloud_operations_without_session friendly_cloud new_cloud_api "dev-1" "power_on" ∅).
  reflexivity.
Defined.

(** A login that the server accepts. *)
Lemma login_scenario :
  let after := Api._authenticate friendly_cloud cloud_api_fresh in
  Api.trace (after.2) = [Api.EvHttp (Api.login_request cloud_api_fresh)]
  /\ Api.auth_token (after.2) = VStr "tok-1".
Proof.
  destruct (authenticate_outcome friendly_cloud cloud_api_fresh eq_refl)
    as (Htrace & _ & _ & _).
  cbv zeta in Htrace |- *. split; [exact Htrace | reflexivity].
Defined.

(** Testing the connection of a new cloud client, then listing. *)
Lemma connection_test_scenario :
  let tested := Api.test_connection friendly_cloud new_cloud_api in
  tested.1 = Return true
  /\ Api.session (tested.2) = true
  /\ Api.needs_authentication (tested.2) = false.
Proof.
  destruct (test_connection_answers friendly_cloud new_cloud_api) as (_ & Hcloud & _).
  cbv zeta in Hcloud |- *.
  destruct (Hcloud eq_refl) as (Hsession & Hready).
  split; [reflexivity|]. split; [exact Hsession|]. apply Hready. reflexivity.
Defined.

(** The listing of the local client. *)
Lemma local_listing_scenario :
  device_key (Api.ble_device_record local_api) = Some "AA:BB:CC:DD:EE:FF"
  /\ Api.ble_device_record local_api !! "type" = Some (VStr "light").
Proof.
  destruct (ble_listing_answers_the_configured_device one_byte_link local_api)
    as (_ & Hrecord).
  apply (Hrecord "AA:BB:CC:DD:EE:FF"); [reflexivity | discriminate].
Defined.

(** One poll of the linked local client, whose status frame is one byte. *)
Lemma local_poll_scenario :
  let after := Coordinator._async_update_data
                 (LocalTransport.env one_byte_link still_clock) local_coordinator in
  is_return (after.1) = true
  /\ Api.trace (Coordinator.api_state (after.2))
     = Api.trace linked_api
       ++ [Api.EvBleRead Api.BLE_CHARACTERISTIC_UUID; Api.EvBleRead Api.BLE_CHARACTERISTIC_UUID]
  /\ Coordinator.devices (after.2)
     = {[ "AA:BB:CC:DD:EE:FF" :=
            stored_record local_coordinator (Api.ble_device_record linked_api)
              "AA:BB:CC:DD:EE:FF" (Api.parse_status [1%Z]) ]}.
Proof.
  apply (local_poll_registers_the_configured_device one_byte_link still_clock
           local_coordinator "AA:BB:CC:DD:EE:FF" [1%Z] [1%Z]);
    try reflexivity.
  discriminate.
Defined.

(** A colour command through the coordinator. *)
Lemma colour_command_scenario :
  let after := Coordinator.send_command (LocalTransport.env one_byte_link still_clock)
                 (Coordinator.refresh_absorbing (LocalTransport.env one_byte_link still_clock))
                 "AA:BB:CC:DD:EE:FF" "set_color" ∅ local_coordinator in
  is_return (after.1) = false
  /\ Coordinator.devices (after.2) = Coordinator.devices local_coordinator
  /\ Api.trace (Coordinator.api_state (after.2))
     = Api.trace linked_api ++ Api.connection_attempt one_byte_link linked_api.
Proof.
  apply (unknown_command_through_the_coordinator one_byte_link still_clock
           (Coordinator.refresh_absorbing (LocalTransport.env one_byte_link still_clock))
           local_coordinator "AA:BB:CC:DD:EE:FF" "set_color" ∅); discriminate.
Defined.

(** ** The stand-alone BLE client: commands, discovery, disconnection *)

Section BleClientMoreFacts.

Variable w : BleClient.World.

Import BleClient.




(** [send_command], step by step. *)
Lemma send_command_unfold (command_type : Z) (data : dict) (self : ble_client) :
  send_command w command_type data self
  = if negb (_connected self) || negb (client_truthy self) then (Return false, self)
    else
      match _build_command_packet command_type data with
      | Raise _ => (Return false, self)
      | Return packet =>
          if bool_decide (is_Some (_characteristics self !! COMMAND_CHAR_UUID)) then
            (match client_write_gatt_char w (trace self) COMMAND_CHAR_UUID packet with
             | Return _ => Return true
             | Raise _ => Return false
             end,
             with_trace (trace self ++ [EvWrite COMMAND_CHAR_UUID packet]) self)
          else (Return false, self)
      end.
Proof.
  unfold send_command, bind at 1, gets at 1.
  destruct (negb (_connected self) || negb (client_truthy self)); [reflexivity|].
  unfold try_except, bind at 1.
  destruct (_build_command_packet command_type data) as [packet|ex]; [|reflexivity].
  unfold bind at 1, gets at 1.
  destruct (bool_decide (is_Some (_characteristics self !! COMMAND_CHAR_UUID)));
    [|reflexivity].
  unfold bind, io_write_gatt_char, ret.
  by destruct (client_write_gatt_char w (trace self) COMMAND_CHAR_UUID packet) as [[]|ex].
Qed.


Lemma light_data_intensity (light_type : string) (intensity : Z) (duration : option Z) :
  dict_get_or
    (if int_given duration
     then <["duration" := from_option VInt VNone duration]>
            ({[ "light_type" := VStr light_type; "intensity" := VInt intensity ]} : dict)
     else {[ "light_type" := VStr light_type; "intensity" := VInt intensity ]})
    "intensity" (VInt 0)
  = VInt intensity.
Proof.
  unfold dict_get_or.
  destruct (int_given duration).
  - rewrite lookup_insert_ne by discriminate.
    rewrite lookup_insert_ne by discriminate.
    by rewrite lookup_singleton_eq.
  - rewrite lookup_insert_ne by discriminate.
    by rewrite lookup_singleton_eq.
Qed.

(** X16. On a connected client that discovered the command characteristic,
    [control_light] writes the two bytes [0x10, intensity] when the intensity
    is within 0..255, whatever the light type and the duration, and answers
    by the outcome of that write; with an intensity outside 0..255 it writes
    nothing and answers False. *)
Theorem control_light_frame
    (light_type : string) (intensity : Z) (duration : option Z) (self : ble_client) :
  _connected self = true ->
  client_truthy self = true ->
  is_Some (_characteristics self !! COMMAND_CHAR_UUID) ->
  control_light w light_type intensity duration self
  = if ((0 <=? intensity) && (intensity <? 256))%Z then
      (match client_write_gatt_char w (trace self) COMMAND_CHAR_UUID [16%Z; intensity] with
       | Return _ => Return true
       | Raise _ => Return false
       end,
       with_trace (trace self ++ [EvWrite COMMAND_CHAR_UUID [16%Z; intensity]]) self)
    else (Return false, self).
Proof.
  intros Hconnected Hclient Hknown.
  unfold control_light. rewrite send_command_unfold, Hconnected, Hclient. cbn [negb orb].
  rewrite (bool_decide_eq_true_2 _ Hknown).
  unfold _build_command_packet.
  change (negb ((0 <=? CMD_SET_LIGHT)%Z && (CMD_SET_LIGHT <? 256)%Z)) with false.
  change (CMD_SET_LIGHT =? CMD_SET_LIGHT)%Z with true. cbv iota.
  rewrite light_data_intensity. unfold pack_B.
  by destruct ((0 <=? intensity)%Z && (intensity <? 256)%Z).
Qed.

Lemma temperature_packet_reads_temperature (data data' : dict) :
  data !! "temperature" = data' !! "temperature" ->
  _build_command_packet CMD_SET_TEMPERATURE data
  = _build_command_packet CMD_SET_TEMPERATURE data'.
Proof.
  intros Hsame. unfold _build_command_packet, dict_get_or. by rewrite Hsame.
Qed.

Lemma climate_data_temperature (temperature humidity : option float) (fan_speed : option Z) :
  (put_if_given "fan_speed" VInt fan_speed
     (put_if_given "humidity" VFloat humidity
        (put_if_given "temperature" VFloat temperature ∅)) : dict) !! "temperature"
  = VFloat <$> temperature.
Proof.
  unfold put_if_given.
  destruct fan_speed; [rewrite lookup_insert_ne by discriminate|];
    (destruct humidity; [rewrite lookup_insert_ne by discriminate|]);
    (destruct temperature; [by rewrite lookup_insert_eq | by rewrite lookup_empty]).
Qed.

(** X17. [control_climate] encodes the temperature only: the humidity and
    the fan speed passed to it never change what it does. Called without a
    temperature on a connected client that discovered the command
    characteristic, it writes the temperature command with the value 0.0,
    the five bytes [0x20, 0, 0, 0, 0]. *)
Theorem control_climate_encodes_temperature_only
    (temperature humidity : option float) (fan_speed : option Z) (self : ble_client) :
  control_climate w temperature humidity fan_speed self
  = control_climate w temperature None None self
  /\ (_connected self = true ->
      client_truthy self = true ->
      is_Some (_characteristics self !! COMMAND_CHAR_UUID) ->
      control_climate w None humidity fan_speed self
      = (match client_write_gatt_char w (trace self) COMMAND_CHAR_UUID
                 [32%Z; 0%Z; 0%Z; 0%Z; 0%Z] with
         | Return _ => Return true
         | Raise _ => Return false
         end,
         with_trace (trace self ++ [EvWrite COMMAND_CHAR_UUID [32%Z; 0%Z; 0%Z; 0%Z; 0%Z]])
           self)).
Proof.
  assert (Hpacket : forall t h f,
            _build_command_packet CMD_SET_TEMPERATURE
              (put_if_given "fan_speed" VInt f
                 (put_if_given "humidity" VFloat h
                    (put_if_given "temperature" VFloat t ∅)))
            = _build_command_packet CMD_SET_TEMPERATURE
                (put_if_given "temperature" VFloat t ∅)).
  { intros t h f. apply temperature_packet_reads_temperature.
    rewrite climate_data_temperature. unfold put_if_given.
    destruct t; [by rewrite lookup_insert_eq | by rewrite lookup_empty]. }
  split.
  - unfold control_climate. rewrite !send_command_unfold.
    rewrite (Hpacket temperature humidity fan_speed), (Hpacket temperature None None).
    reflexivity.
  - intros Hconnected Hclient Hknown.
    unfold control_climate. rewrite send_command_unfold, Hconnected, Hclient.
    cbn [negb orb]. rewrite (bool_decide_eq_true_2 _ Hknown), Hpacket.
    reflexivity.
Qed.

(** X18. [control_water] sends the bare drip command: the drip rate and the
    flow rate passed to it are never encoded; on a connected client that
    discovered the command characteristic it writes the single byte 0x40. *)
Theorem control_water_sends_the_bare_code
    (drip_rate flow_rate : option float) (self : ble_client) :
  control_water w drip_rate flow_rate self = send_command w CMD_SET_DRIP ∅ self
  /\ (_connected self = true ->
      client_truthy self = true ->
      is_Some (_characteristics self !! COMMAND_CHAR_UUID) ->
      control_water w drip_rate flow_rate self
      = (match client_write_gatt_char w (trace self) COMMAND_CHAR_UUID [64%Z] with
         | Return _ => Return true
         | Raise _ => Return false
         end,
         with_trace (trace self ++ [EvWrite COMMAND_CHAR_UUID [64%Z]]) self)).
Proof.
  assert (Hsame : control_water w drip_rate flow_rate self = send_command w CMD_SET_DRIP ∅ self).
  { unfold control_water. by rewrite !send_command_unfold. }
  split; [exact Hsame|].
  intros Hconnected Hclient Hknown.
  rewrite Hsame, send_command_unfold, Hconnected, Hclient. cbn [negb orb].
  by rewrite (bool_decide_eq_true_2 _ Hknown).
Qed.

(** [disconnect], step by step. *)
Lemma disconnect_unfold (self : ble_client) :
  disconnect w self
  = if client_truthy self && _connected self then
      match client_disconnect w (trace self) with
      | Return _ =>
          (Return tt, with_connected false (with_trace (trace self ++ [EvDisconnect]) self))
      | Raise ex => (Raise ex, with_trace (trace self ++ [EvDisconnect]) self)
      end
    else (Return tt, self).
Proof.
  unfold disconnect, bind at 1, gets at 1.
  destruct (client_truthy self && _connected self); [|reflexivity].
  unfold bind, io_disconnect, modify.
  by destruct (client_disconnect w (trace self)) as [[]|ex].
Qed.

(** X19. [disconnect] on a client that is not marked connected (or has no
    client object) does nothing. On a connected client it asks the link to
    disconnect once: when that returns the client is no longer marked
    connected and a second [disconnect] does nothing; when it raises, the
    error reaches the caller and the client is still marked connected. *)
Theorem disconnect_outcome (self : ble_client) :
  let after := disconnect w self in
  (client_truthy self && _connected self = false -> after = (Return tt, self))
  /\ (client_truthy self && _connected self = true ->
      trace (after.2) = trace self ++ [EvDisconnect]
      /\ match client_disconnect w (trace self) with
         | Return _ =>
             after.1 = Return tt
             /\ _connected (after.2) = false
             /\ disconnect w (after.2) = (Return tt, after.2)
         | Raise ex =>
             after.1 = Raise ex /\ _connected (after.2) = true
         end).
Proof.
  cbv zeta. rewrite disconnect_unfold.
  destruct (client_truthy self && _connected self) eqn:Hready.
  - split; [discriminate|]. intros _.
    apply andb_true_iff in Hready as [Hclient Hconnected].
    destruct (client_disconnect w (trace self)) as [[]|ex]; cbn [fst snd].
    + split; [reflexivity|]. split; [reflexivity|]. split; [reflexivity|].
      rewrite disconnect_unfold. cbn [_connected with_connected with_trace].
      by rewrite andb_false_r.
    + split; [reflexivity|]. split; [reflexivity|]. exact Hconnected.
  - split; [reflexivity | discriminate].
Qed.

Lemma store_service_doms (st : ble_client) (svc : service) :
  dom (_services (store_service st svc)) = dom (_services st) ∪ {[ service_uuid svc ]}
  /\ dom (_characteristics (store_service st svc))
     = dom (_characteristics st) ∪ list_to_set (char_uuid <$> characteristics svc).
Proof.
  unfold store_service. cbn [_services _characteristics].
  split; [rewrite dom_insert_L; set_solver|].
  generalize (_characteristics st). induction (characteristics svc) as [|c cs IH];
    intros chars; cbn [fold_left fmap list_fmap list_to_set].
  - set_solver.
  - rewrite IH, dom_insert_L. set_solver.
Qed.

Lemma store_services_doms (services : list service) :
  forall st,
  dom (_services (store_services services st))
  = dom (_services st) ∪ list_to_set (service_uuid <$> services)
  /\ dom (_characteristics (store_services services st))
     = dom (_characteristics st)
       ∪ list_to_set (char_uuid <$> concat (characteristics <$> services)).
Proof.
  induction services as [|svc services IH]; intros st.
  - cbn. split; set_solver.
  - cbn [store_services fold_left]. fold (store_services services (store_service st svc)).
    destruct (IH (store_service st svc)) as [Hservices Hchars].
    destruct (store_service_doms st svc) as [Hservice Hchar].
    rewrite Hservices, Hchars, Hservice, Hchar.
    cbn [fmap list_fmap concat list_to_set]. rewrite fmap_app, list_to_set_app_L.
    split; set_solver.
Qed.

(** X20. A [connect] that answers True has stored everything it discovered
    and dropped nothing: afterwards the known service ids are those known
    before together with the ids of the discovered services, and the known
    characteristic ids are those known before together with the ids of all
    the characteristics of the discovered services. *)
Theorem connect_stores_the_discovery (self : ble_client) :
  let after := connect w self in
  after.1 = Return true ->
  exists services,
    client_get_services w (trace self ++ [EvConnect (device_address self)]) = Return services
    /\ dom (_services (after.2))
       = dom (_services self) ∪ list_to_set (service_uuid <$> services)
    /\ dom (_characteristics (after.2))
       = dom (_characteristics self)
         ∪ list_to_set (char_uuid <$> concat (characteristics <$> services)).
Proof.
  cbv zeta. rewrite connect_unfold. cbv zeta.
  destruct (bleak_client w (device_address self)); [|discriminate].
  destruct (client_connect w (trace self) (device_address self)) as [[]|ex]; [|discriminate].
  destruct (client_get_services w (trace self ++ [EvConnect (device_address self)]))
    as [services|ex]; [|discriminate].
  intros _. exists services. split; [reflexivity|]. cbn [snd].
  unfold with_connected. cbn [_services _characteristics].
  exact (store_services_doms services _).
Qed.

(** X21. Connecting and then commanding: after a [connect] that answered
    True and discovered a characteristic with the command id, setting the
    light to an intensity within 0..255 writes the two bytes
    [0x10, intensity] to that characteristic, as the next exchange after the
    discovery, and answers by the outcome of that write. *)
Theorem connect_then_set_light (self : ble_client) (intensity : Z) :
  let linked := (connect w self).2 in
  (connect w self).1 = Return true ->
  COMMAND_CHAR_UUID ∈ dom (_characteristics linked) ->
  (0 <= intensity < 256)%Z ->
  send_command w CMD_SET_LIGHT {[ "intensity" := VInt intensity ]} linked
  = (match client_write_gatt_char w
             (trace self ++ [EvConnect (device_address self); EvGetServices])
             COMMAND_CHAR_UUID [16%Z; intensity] with
     | Return _ => Return true
     | Raise _ => Return false
     end,
     with_trace
       (trace self ++ [EvConnect (device_address self); EvGetServices;
                       EvWrite COMMAND_CHAR_UUID [16%Z; intensity]])
       linked).
Proof.
  intros linked Htrue Hknown Hrange. subst linked.
  revert Htrue Hknown. rewrite connect_unfold. cbv zeta.
  destruct (bleak_client w (device_address self)); [|discriminate].
  destruct (client_connect w (trace self) (device_address self)) as [[]|ex]; [|discriminate].
  destruct (client_get_services w (trace self ++ [EvConnect (device_address self)]))
    as [services|ex]; [|discriminate].
  cbn [fst snd]. intros _ Hknown. apply elem_of_dom in Hknown.
  rewrite send_command_unfold.
  assert (Hclient : forall svcs st, client (store_services svcs st) = client st).
  { induction svcs as [|svc svcs IH]; intros st; [reflexivity|].
    cbn [store_services fold_left]. fold (store_services svcs (store_service st svc)).
    by rewrite IH. }
  unfold client_truthy at 1. cbn [_connected client with_connected trace].
  rewrite Hclient, store_services_trace. cbn [client with_client with_trace trace default].
  cbn [negb orb]. rewrite light_packet.
  assert (Hin : ((0 <=? intensity)%Z && (intensity <? 256)%Z) = true) by lia.
  rewrite Hin, (bool_decide_eq_true_2 _ Hknown), <- app_assoc.
  reflexivity.
Qed.

End BleClientMoreFacts.



(** A UV light at intensity 50 for ten minutes, on the linked client. *)
Lemma control_light_scenario :
  BleClient.control_light radio_once "uv" 50 (Some 10%Z) linked_client
  = (Return true,
     BleClient.with_trace
       (BleClient.trace linked_client
        ++ [BleClient.EvWrite BleClient.COMMAND_CHAR_UUID [16%Z; 50%Z]])
       linked_client).
Proof.
  apply (control_light_frame radio_once "uv" 50 (Some 10%Z) linked_client);
    [reflexivity | reflexivity |].
  eexists. vm_compute. reflexivity.
Defined.

(** Asking for 60 % humidity and fan speed 3, without a temperature. *)
Lemma control_climate_scenario :
  BleClient.control_climate radio_once None (Some 60.0%float) (Some 3%Z) linked_client
  = (Return true,
     BleClient.with_trace
       (BleClient.trace linked_client
        ++ [BleClient.EvWrite BleClient.COMMAND_CHAR_UUID [32%Z; 0%Z; 0%Z; 0%Z; 0%Z]])
       linked_client).
Proof.
  destruct (control_climate_encodes_temperature_only radio_once None (Some 60.0%float)
              (Some 3%Z) linked_client) as (_ & Hwritten).
  apply Hwritten; [reflexivity | reflexivity |].
  eexists. vm_compute. reflexivity.
Defined.

(** A drip rate of 2.5, on the linked client. *)
Lemma control_water_scenario :
  BleClient.control_water radio_once (Some 2.5%float) None linked_client
  = (Return true,
     BleClient.with_trace
       (BleClient.trace linked_client
        ++ [BleClient.EvWrite BleClient.COMMAND_CHAR_UUID [64%Z]])
       linked_client).
Proof.
  destruct (control_water_sends_the_bare_code radio_once (Some 2.5%float) None linked_client)
    as (_ & Hwritten).
  apply Hwritten; [reflexivity | reflexivity |].
  eexists. vm_compute. reflexivity.
Defined.

(** Disconnecting the linked client, twice. *)
Lemma disconnect_scenario :
  let after := BleClient.disconnect radio_once linked_client in
  after.1 = Return tt
  /\ BleClient._connected (after.2) = false
  /\ BleClient.disconnect radio_once (after.2) = (Return tt, after.2).
Proof.
  destruct (disconnect_outcome radio_once linked_client) as (_ & Hready).
  cbv zeta in Hready |- *.
  destruct Hready as (_ & Hdone); [reflexivity|].
  exact Hdone.
Defined.

(** What the fresh client knows after its first connection. *)
Lemma discovery_scenario :
  exists services,
    BleClient.client_get_services radio_once
      (BleClient.trace fresh_client ++ [BleClient.EvConnect (BleClient.device_address fresh_client)])
    = Return services
    /\ dom (BleClient._services linked_client)
       = dom (BleClient._services fresh_client)
         ∪ list_to_set (BleClient.service_uuid <$> services)
    /\ dom (BleClient._characteristics linked_client)
       = dom (BleClient._characteristics fresh_client)
         ∪ list_to_set (BleClient.char_uuid <$> concat (BleClient.characteristics <$> services)).
Proof.
  apply (connect_stores_the_discovery radio_once fresh_client).
  vm_compute. reflexivity.
Defined.

(** Connecting, then setting the light to 50. *)
Lemma connect_then_light_scenario :
  BleClient.send_command radio_once BleClient.CMD_SET_LIGHT {[ "intensity" := VInt 50 ]}
    linked_client
  = (Return true,
     BleClient.with_trace
       (BleClient.trace fresh_client
        ++ [BleClient.EvConnect (BleClient.device_address fresh_client);
            BleClient.EvGetServices;
            BleClient.EvWrite BleClient.COMMAND_CHAR_UUID [16%Z; 50%Z]])
       linked_client).
Proof.
  apply (connect_then_set_light radio_once fresh_client 50).
  - vm_compute. reflexivity.
  - apply elem_of_dom. eexists. vm_compute. reflexivity.
  - lia.
Defined.

(** ** Sequencing and failure *)

Lemma bind_raises_now {St A B} (m : M St A) (k : A -> M St B) (st : St) :
  is_return (m st).1 = false -> is_return (bind m k st).1 = false.
Proof. unfold bind. by destruct (m st) as [[a|ex] st']. Qed.

Lemma bind_raises_later {St A B} (m : M St A) (k : A -> M St B) (st : St) :
  (forall a st', is_return (k a st').1 = false) -> is_return (bind m k st).1 = false.
Proof. intros Hk. unfold bind. destruct (m st) as [[a|ex] st']; [apply Hk | reflexivity]. Qed.

Lemma try_reraise_outcome {St A} (m : M St A) (st : St) :
  is_return (try_except m (fun ex => raise ex) st).1 = is_return (m st).1.
Proof. unfold try_except, raise. by destruct (m st) as [[a|ex] st']. Qed.

(** ** The light entity: brightness scales and commands *)

Section LightFacts.

Import Light.

Lemma rescale_to_byte_scale (b : Z) :
  (0 <= b <= 255)%Z ->
  rescale (VInt b) 100 255 = Return (b * 255 / 100)%Z.
Proof.
  intros Hrange.
  assert (Hall : forallb (fun b => match rescale (VInt b) 100 255 with
                                   | Return z => (z =? b * 255 / 100)%Z
                                   | Raise _ => false
                                   end) (seqZ 0 256) = true)
    by (vm_compute; reflexivity).
  rewrite forallb_forall in Hall. specialize (Hall b).
  destruct (rescale (VInt b) 100 255) as [z|ex].
  - f_equal. apply Z.eqb_eq, Hall, list_elem_of_In, elem_of_seqZ. lia.
  - discriminate Hall. apply list_elem_of_In, elem_of_seqZ. lia.
Qed.

Lemma rescale_to_percent_scale (h : Z) :
  (0 <= h <= 255)%Z ->
  rescale (VInt h) 255 100 = Return (h * 100 / 255)%Z.
Proof.
  intros Hrange.
  assert (Hall : forallb (fun h => match rescale (VInt h) 255 100 with
                                   | Return z => (z =? h * 100 / 255)%Z
                                   | Raise _ => false
                                   end) (seqZ 0 256) = true)
    by (vm_compute; reflexivity).
  rewrite forallb_forall in Hall. specialize (Hall h).
  destruct (rescale (VInt h) 255 100) as [z|ex].
  - f_equal. apply Z.eqb_eq, Hall, list_elem_of_In, elem_of_seqZ. lia.
  - discriminate Hall. apply list_elem_of_In, elem_of_seqZ. lia.
Qed.

(** X22. Updating the entity from a device record whose brightness is an
    integer percentage b, 0 <= b <= 100: the entity is on exactly when the
    record's power is the string "on", and its brightness becomes the
    percentage rescaled to 0..255 and truncated, b * 255 // 100 (so 100 gives
    255 and 50 gives 127). A record without a brightness counts as 100. *)
Theorem update_from_device_data_scales_brightness
    (device_data : dict) (self : light) (b : Z) :
  dict_get_or device_data "brightness" (VInt 100) = VInt b ->
  (0 <= b <= 100)%Z ->
  _update_from_device_data device_data self
  = (Return tt,
     {| _attr_is_on := eq_str (dict_get_or device_data "power" (VStr "off")) "on";
        _attr_brightness := (b * 255 / 100)%Z |})
  /\ (0 <= b * 255 / 100 <= 255)%Z
  /\ (device_data !! "brightness" = None -> b = 100%Z).
Proof.
  intros Hbrightness Hrange.
  split; [|split].
  - unfold _update_from_device_data, bind, modify. rewrite Hbrightness.
    rewrite rescale_to_byte_scale by lia. reflexivity.
  - split; [apply Z.div_pos; lia|]. apply Z.div_le_upper_bound; lia.
  - intros Hmissing. unfold dict_get_or in Hbrightness. rewrite Hmissing in Hbrightness.
    cbn in Hbrightness. congruence.
Qed.

(** X23. Updating the entity from a device record whose brightness is not a
    number (None, a string, a list or a dictionary) raises [TypeError] and
    leaves the entity half updated: the power state is already the new one,
    the brightness still the old one. A brightness above 100, which the
    one-byte field of the status frame can carry up to 255, is not refused:
    the entity's brightness becomes b * 255 // 100, beyond the 0..255 scale. *)
Theorem update_from_device_data_on_odd_brightness
    (device_data : dict) (self : light) (v : val) :
  dict_get_or device_data "brightness" (VInt 100) = v ->
  let power_on := eq_str (dict_get_or device_data "power" (VStr "off")) "on" in
  (v = VNone \/ (exists s, v = VStr s) \/ (exists l, v = VList l) \/ (exists d, v = VDict d) ->
   _update_from_device_data device_data self
   = (Raise (Exn TypeError "unsupported operand type(s) for /"),
      {| _attr_is_on := power_on; _attr_brightness := _attr_brightness self |}))
  /\ (forall b, v = VInt b -> (100 < b <= 255)%Z ->
      _update_from_device_data device_data self
      = (Return tt, {| _attr_is_on := power_on; _attr_brightness := (b * 255 / 100)%Z |})
      /\ (255 < b * 255 / 100)%Z).
Proof.
  intros Hbrightness power_on. subst power_on. split.
  - intros [-> | [[s ->] | [[l ->] | [d ->]]]];
      unfold _update_from_device_data, bind, modify; rewrite Hbrightness; reflexivity.
  - intros b -> Hrange. split.
    + unfold _update_from_device_data, bind, modify. rewrite Hbrightness.
      rewrite rescale_to_byte_scale by lia. reflexivity.
    + enough (256 <= b * 255 / 100)%Z by lia. apply Z.div_le_lower_bound; lia.
Qed.

(** X24. The percentage [async_turn_on] computes from a brightness h on the
    0..255 scale is h * 100 // 255, within 0..100, and the set_brightness
    payload for it always builds: the two bytes [2, percentage]. Scaling a
    percentage p to 0..255 (as the update does) and back (as the turn-on
    does) gives p or p - 1. *)
Theorem turn_on_percentage (h p : Z) :
  (0 <= h <= 255)%Z ->
  (0 <= p <= 100)%Z ->
  rescale (VInt h) 255 100 = Return (h * 100 / 255)%Z
  /\ (0 <= h * 100 / 255 <= 100)%Z
  /\ Api._build_ble_command CMD_SET_BRIGHTNESS {[ "brightness" := VInt (h * 100 / 255) ]}
     = Return [2%Z; (h * 100 / 255)%Z]
  /\ exists back,
       rescale (VInt (p * 255 / 100)) 255 100 = Return back
       /\ (back = p \/ back = p - 1)%Z.
Proof.
  intros Hh Hp.
  assert (Hpercent : (0 <= h * 100 / 255 <= 100)%Z).
  { split; [apply Z.div_pos; lia|]. apply Z.div_le_upper_bound; lia. }
  split; [by apply rescale_to_percent_scale|]. split; [exact Hpercent|]. split.
  - unfold Api._build_ble_command, CMD_SET_BRIGHTNESS, dict_get_or.
    rewrite lookup_singleton_eq. cbn [String.eqb Ascii.eqb Bool.eqb default Api.py_bytes].
    unfold id.
    assert (Hin : ((0 <=? h * 100 / 255)%Z && (h * 100 / 255 <? 256)%Z) = true) by lia.
    cbn [Z.leb Z.ltb Z.compare Pos.compare Pos.compare_cont andb]. by rewrite Hin.
  - exists (p * 255 / 100 * 100 / 255)%Z. split.
    + apply rescale_to_percent_scale. split; [apply Z.div_pos; lia|].
      apply Z.div_le_upper_bound; lia.
    + assert (Hlow : (p * 255 - 99 <= p * 255 / 100 * 100)%Z).
      { pose proof (Z.mod_pos_bound (p * 255) 100 ltac:(lia)).
        pose proof (Z.div_mod (p * 255) 100 ltac:(lia)). lia. }
      assert (Hhigh : (p * 255 / 100 * 100 <= p * 255)%Z).
      { pose proof (Z.mul_div_le (p * 255) 100 ltac:(lia)). lia. }
      assert (Hback : (p - 1 <= p * 255 / 100 * 100 / 255 <= p)%Z).
      { split.
        - apply Z.div_le_lower_bound; lia.
        - apply Z.div_le_upper_bound; lia. }
      lia.
Qed.

(** X25. Turning the light on with a colour over the local transport never
    succeeds: whatever the state, the refresh entry point, the brightness
    argument and the colour, [async_turn_on] raises, because the BLE codec
    knows no set_color command. *)
Theorem turn_on_with_colour_fails_locally
    (w : Api.World) (clock : Api.api -> float)
    (refresh : M (Coordinator.coordinator Api.api) unit)
    (device_id : string) (kwargs : turn_on_kwargs) (colour : val)
    (self : Coordinator.coordinator Api.api) :
  rgb_color kwargs = Some colour ->
  is_return (async_turn_on (LocalTransport.env w clock) refresh device_id kwargs self).1
  = false.
Proof.
  intros Hcolour.
  assert (Hrefused : forall st,
            is_return (Coordinator.send_command (LocalTransport.env w clock) refresh
                         device_id CMD_SET_COLOR {[ "rgb_color" := colour ]} st).1 = false).
  { intros st.
    by destruct (unknown_command_refused_locally w clock refresh st device_id CMD_SET_COLOR
                   {[ "rgb_color" := colour ]}) as (Hrefused & _). }
  unfold async_turn_on. rewrite Hcolour.
  rewrite try_reraise_outcome.
  apply bind_raises_later; intros _ st1.
  apply bind_raises_later; intros _ st2.
  apply bind_raises_now, bind_raises_now, Hrefused.
Qed.

End LightFacts.

(** The lamp at 50 %. *)
Lemma half_brightness_scenario :
  Light._update_from_device_data lamp_half Light.init
  = (Return tt, {| Light._attr_is_on := true; Light._attr_brightness := 127 |}).
Proof.
  destruct (update_from_device_data_scales_brightness lamp_half Light.init 50)
    as (Hrun & _); [reflexivity | lia |].
  exact Hrun.
Defined.

(** The lamp whose brightness is the string "high". *)
Lemma odd_brightness_scenario :
  Light._update_from_device_data lamp_odd Light.init
  = (Raise (Exn TypeError "unsupported operand type(s) for /"),
     {| Light._attr_is_on := true; Light._attr_brightness := 255 |}).
Proof.
  destruct (update_from_device_data_on_odd_brightness lamp_odd Light.init (VStr "high"))
    as (Hraise & _); [reflexivity|].
  apply Hraise. right. left. by exists "high".
Defined.

(** Half of the 0..255 scale, and 50 % there and back. *)
Lemma percentage_scenario :
  Light.rescale (VInt 128) 255 100 = Return 50%Z
  /\ exists back, Light.rescale (VInt 127) 255 100 = Return back
                  /\ (back = 50 \/ back = 50 - 1)%Z.
Proof.
  destruct (turn_on_percentage 128 50) as (Hpercent & _ & _ & Hback); [lia | lia |].
  split; [exact Hpercent | exact Hback].
Defined.

(** Turning the linked local light on in red. *)
Lemma colour_turn_on_scenario :
  is_return
    (Light.async_turn_on (LocalTransport.env one_byte_link still_clock)
       (Coordinator.refresh_absorbing (LocalTransport.env one_byte_link still_clock))
       "AA:BB:CC:DD:EE:FF" colour_kwargs local_coordinator).1
  = false.
Proof.
  apply (turn_on_with_colour_fails_locally one_byte_link still_clock
           (Coordinator.refresh_absorbing (LocalTransport.env one_byte_link still_clock))
           "AA:BB:CC:DD:EE:FF" colour_kwargs (VList [VInt 255; VInt 0; VInt 0])
           local_coordinator).
  reflexivity.
Defined.

(** ** The device scanner *)

Section ScannerFacts.

Import Scanner.

Variable lower : string -> string.
Variable discover : nat -> outcome (list BLEDevice).

Lemma prefix_shorter (s : string) :
  String.prefix "marspro" s = true -> String.prefix "mars" s = true.
Proof.
  destruct s as [|c1 [|c2 [|c3 [|c4 s]]]]; cbn -[Ascii.ascii_dec]; try discriminate;
    repeat (destruct (Ascii.ascii_dec _ _); try discriminate); try reflexivity.
  intros _. by destruct s.
Qed.

Lemma contains_shorter (s : string) :
  contains "marspro" s = true -> contains "mars" s = true.
Proof.
  induction s as [|c s IH]; cbn [contains].
  - cbn. discriminate.
  - intros Hlong. apply orb_true_iff in Hlong as [Hprefix | Hrest].
    + by rewrite (prefix_shorter _ Hprefix).
    + rewrite (IH Hrest). by rewrite orb_true_r.
Qed.

Lemma is_marspro_device_mars (device : BLEDevice) :
  _is_marspro_device lower device
  = contains "mars" (lower (name_or (ble_name device) "")).
Proof.
  unfold _is_marspro_device.
  destruct (contains "marspro" _) eqn:Hlong; [|reflexivity].
  by rewrite (contains_shorter _ Hlong).
Qed.

Lemma fold_note_device (devices : list BLEDevice) :
  forall self,
  fold_left (note_device lower) devices self
  = {| discovered_devices :=
         discovered_devices self
         ++ (_create_marspro_device <$> filter (fun d => _is_marspro_device lower d = true) devices);
       scans := scans self |}.
Proof.
  induction devices as [|device devices IH]; intros self.
  - cbn. rewrite app_nil_r. by destruct self.
  - cbn [fold_left]. rewrite IH, filter_cons. unfold note_device.
    destruct (_is_marspro_device lower device) eqn:Hdevice.
    + rewrite decide_True by reflexivity. cbn [discovered_devices scans fmap list_fmap].
      by rewrite <- app_assoc.
    + by rewrite decide_False by discriminate.
Qed.

(** X26. A scan never raises. When the radio answers, the scan appends the
    devices whose name matches, in the order reported, to everything found
    by earlier scans, and answers that whole list, so a device seen by two
    scans is listed twice. When the radio fails, the scan answers the empty
    list and keeps what earlier scans found. *)
Theorem scan_accumulates (self : scanner) :
  scan_for_devices lower discover self
  = match discover (scans self) with
    | Return devices =>
        let found :=
          discovered_devices self
          ++ (_create_marspro_device
                <$> filter (fun d => _is_marspro_device lower d = true) devices) in
        (Return found, {| discovered_devices := found; scans := S (scans self) |})
    | Raise _ =>
        (Return [], {| discovered_devices := discovered_devices self;
                       scans := S (scans self) |})
    end.
Proof.
  unfold scan_for_devices, try_except, bind, modify, gets, ret.
  destruct (discover (scans self)) as [devices|ex]; [|reflexivity].
  by rewrite fold_note_device.
Qed.

(** X27. The name test reduces to one check: a device is taken for a MarsPro
    device exactly when its lower-cased name contains "mars" (the "marspro"
    test adds nothing). Provided lower-casing the empty name gives the empty
    name, a device without a name is never taken, so every device a scan
    adds carries the name the radio reported, never the fallback name. *)
Theorem scanner_takes_named_mars_devices (device : BLEDevice) :
  lower "" = "" ->
  _is_marspro_device lower device
  = contains "mars" (lower (name_or (ble_name device) ""))
  /\ (_is_marspro_device lower device = true ->
      ble_name device = Some (name (_create_marspro_device device))
      /\ name (_create_marspro_device device) <> "").
Proof.
  intros Hempty. split; [apply is_marspro_device_mars|].
  rewrite is_marspro_device_mars. unfold _create_marspro_device, name_or. cbn [name].
  destruct (ble_name device) as [s|]; [|rewrite Hempty; cbn; discriminate].
  destruct (String.eqb s "") eqn:Hs; [rewrite Hempty; cbn; discriminate|].
  intros _. split; [reflexivity|]. by apply String.eqb_neq.
Qed.

End ScannerFacts.

(** A device named "MarsPro-1234" in range. *)
Lemma named_device_scenario :
  Scanner.ble_name grow_light = Some (Scanner.name (Scanner._create_marspro_device grow_light))
  /\ Scanner.name (Scanner._create_marspro_device grow_light) <> ""
  /\ Scanner._is_marspro_device ascii_lower nameless_beacon = false.
Proof.
  destruct (scanner_takes_named_mars_devices ascii_lower grow_light eq_refl)
    as (_ & Hnamed).
  destruct (scanner_takes_named_mars_devices ascii_lower nameless_beacon eq_refl)
    as (Hmars & _).
  destruct Hnamed as (Hname & Hfilled); [vm_compute; reflexivity|].
  split; [exact Hname|]. split; [exact Hfilled|].
  rewrite Hmars. vm_compute. reflexivity.
Defined.
